(** * HubspotChat: the query pipeline of [main.py]

  A shallow embedding of class [HubSpotChatbot] (src/main.py, lines 63-303):
  [interpret_query], [build_api_request], [fetch_hubspot_data],
  [format_response] and [process_query], together with the Python builtins
  those methods call.

  Conventions of the embedding.
  - A Python [str] is a Rocq [string] holding its UTF-8 encoding.  Operations
    that count characters ([len], slicing, iteration) work on code points,
    that is on the groups a lead byte forms with its continuation bytes.
  - [str.lower] is modelled on the ASCII letters; other bytes are unchanged.
    [repr] of a string escapes the ASCII control characters only.
    [float] reads ASCII digits only.  [str.strip] and [float] strip the
    white space they strip in Python, ASCII or not.
  - A Python [float] is an IEEE 754 binary64 number, [spec_float] with
    precision 53 and maximal exponent 1024; [sum] adds from left to right.
  - A Python [dict] is an association list in insertion order.
  - A raised exception is a value of [exn]; code that may raise runs in the
    error monad [res].  Diagnostics written with [st.error] are collected in
    a list. *)

From Stdlib Require Import ZArith List String Ascii Bool Lia.
From Stdlib Require Import Numbers.DecimalString.
From Stdlib Require Import Floats.SpecFloat.
Import ListNotations.

Open Scope string_scope.
Open Scope Z_scope.

(** ** Text *)

Module PyStr.

Definition code (a : ascii) : Z := Z.of_N (N_of_ascii a).

Definition chr (n : Z) : ascii := ascii_of_N (Z.to_N n).

Definition str1 (a : ascii) : string := String a EmptyString.

(** The double quote and the line feed, which a literal cannot hold. *)
Definition dquote : string := str1 (chr 34).
Definition newline : string := str1 (chr 10).

Definition is_upper (a : ascii) : bool := (65 <=? code a) && (code a <=? 90).
Definition is_digit (a : ascii) : bool := (48 <=? code a) && (code a <=? 57).

Definition lower_ascii (a : ascii) : ascii :=
  if is_upper a then chr (code a + 32) else a.

(** [s.lower()] *)
Fixpoint lower (s : string) : string :=
  match s with
  | EmptyString => EmptyString
  | String a t => String (lower_ascii a) (lower t)
  end.

(** [needle in hay] for two strings. *)
Fixpoint contains (needle hay : string) : bool :=
  String.prefix needle hay ||
  match hay with
  | EmptyString => false
  | String _ t => contains needle t
  end.

(** A continuation byte of UTF-8: 10xxxxxx. *)
Definition is_cont (a : ascii) : bool := (128 <=? code a) && (code a <? 192).

(** The code points of a string, each as the string of its bytes. *)
Fixpoint chars_from (cur : string) (s : string) : list string :=
  match s with
  | EmptyString => [cur]
  | String a t =>
      if is_cont a then chars_from (cur ++ str1 a) t
      else cur :: chars_from (str1 a) t
  end.

Definition chars (s : string) : list string :=
  match s with
  | EmptyString => []
  | String a t => chars_from (str1 a) t
  end.

Fixpoint concat_all (l : list string) : string :=
  match l with
  | [] => EmptyString
  | x :: t => x ++ concat_all t
  end.

(** [len(s)] *)
Definition len (s : string) : Z := Z.of_nat (List.length (chars s)).

(** [s[:n]] for [n >= 0] *)
Definition take (n : nat) (s : string) : string := concat_all (firstn n (chars s)).

(** [sep.join(l)] for a list of strings. *)
Fixpoint join (sep : string) (l : list string) : string :=
  match l with
  | [] => EmptyString
  | [x] => x
  | x :: t => x ++ sep ++ join sep t
  end.

Definition bytes (l : list Z) : string :=
  fold_right (fun n s => String (chr n) s) EmptyString l.

(** The characters for which [str.isspace] holds. *)
Definition spaces : list string :=
  map bytes
    [ [9]; [10]; [11]; [12]; [13]; [28]; [29]; [30]; [31]; [32];
      [194; 133]; [194; 160]; [225; 154; 128];
      [226; 128; 128]; [226; 128; 129]; [226; 128; 130]; [226; 128; 131];
      [226; 128; 132]; [226; 128; 133]; [226; 128; 134]; [226; 128; 135];
      [226; 128; 136]; [226; 128; 137]; [226; 128; 138];
      [226; 128; 168]; [226; 128; 169]; [226; 128; 175];
      [226; 129; 159]; [227; 128; 128] ].

Definition is_space (c : string) : bool := existsb (String.eqb c) spaces.

Fixpoint drop_spaces (l : list string) : list string :=
  match l with
  | [] => []
  | c :: t => if is_space c then drop_spaces t else l
  end.

(** [s.strip()] *)
Definition strip (s : string) : string :=
  concat_all (rev (drop_spaces (rev (drop_spaces (chars s))))).

(** [str(n)] for an [int]. *)
Definition of_Z (n : Z) : string := NilZero.string_of_int (Z.to_int n).

End PyStr.

(** ** Floating-point numbers *)

Module PyFloat.
Import PyStr.

Definition prec : Z := 53.
Definition emax : Z := 1024.

Definition float_eqb (x y : spec_float) : bool :=
  match x, y with
  | S754_zero a, S754_zero b => Bool.eqb a b
  | S754_infinity a, S754_infinity b => Bool.eqb a b
  | S754_nan, S754_nan => true
  | S754_finite a m e, S754_finite b n f => Bool.eqb a b && Pos.eqb m n && Z.eqb e f
  | _, _ => false
  end.

Definition zero : spec_float := S754_zero false.
Definition one : spec_float := S754_finite false 4503599627370496 (-52).

(** [x + y] *)
Definition add (x y : spec_float) : spec_float := SFadd prec emax x y.

(** The float nearest to [(-1)^s * d * 10^e10], ties to even. *)
Definition of_decimal (s : bool) (d : Z) (e10 : Z) : spec_float :=
  match d with
  | Zpos p =>
      if 0 <=? e10 then binary_round prec emax s (p * Z.to_pos (10 ^ e10)) 0
      else
        let '(mz, ez, lz) := SFdiv_core_binary prec emax (Zpos p) 0 (10 ^ (- e10)) 0 in
        binary_round_aux prec emax s mz ez lz
  | _ => S754_zero s
  end.

(** [float(n)] for an [int]: [None] stands for OverflowError. *)
Definition of_Z (n : Z) : option spec_float :=
  match binary_normalize prec emax n 0 false with
  | S754_infinity _ => None
  | x => Some x
  end.

(** *** Reading a float: [float(s)] for a string *)

Definition digit_val (a : ascii) : Z := code a - 48.

(** The rest of a digit part ([digit (["_"] digit)*]) after a digit was read:
    the value read so far, the number of digits, and what follows. *)
Fixpoint digits_rest (acc : Z) (n : Z) (s : string) : Z * Z * string :=
  match s with
  | String a t =>
      if is_digit a then digits_rest (10 * acc + digit_val a) (n + 1) t
      else if (code a =? 95) then
        match t with
        | String b u =>
            if is_digit b then digits_rest (10 * acc + digit_val b) (n + 1) u
            else (acc, n, s)
        | EmptyString => (acc, n, s)
        end
      else (acc, n, s)
  | EmptyString => (acc, n, s)
  end.

(** A digit part continuing the value [acc], if one starts here. *)
Definition digitpart (acc : Z) (s : string) : option (Z * Z * string) :=
  match s with
  | String a t => if is_digit a then Some (digits_rest (10 * acc + digit_val a) 1 t) else None
  | EmptyString => None
  end.

Definition read_sign (s : string) : bool * string :=
  match s with
  | String a t =>
      if code a =? 45 then (true, t)
      else if code a =? 43 then (false, t)
      else (false, s)
  | EmptyString => (false, s)
  end.

(** The exponent part, which must end the text. *)
Definition read_exponent (s : string) : option Z :=
  match s with
  | EmptyString => Some 0
  | String a t =>
      if (code a =? 101) || (code a =? 69) then
        let (neg, u) := read_sign t in
        match digitpart 0 u with
        | Some (e, _, EmptyString) => Some (if neg then - e else e)
        | _ => None
        end
      else None
  end.

(** [number [exponent]]: the decimal mantissa and exponent. *)
Definition read_number (s : string) : option (Z * Z) :=
  match digitpart 0 s with
  | Some (i, _, r) =>
      match r with
      | String a t =>
          if code a =? 46 then
            match digitpart i t with
            | Some (m, n, u) =>
                match read_exponent u with Some e => Some (m, e - n) | None => None end
            | None =>
                match read_exponent t with Some e => Some (i, e) | None => None end
            end
          else
            match read_exponent r with Some e => Some (i, e) | None => None end
      | EmptyString => Some (i, 0)
      end
  | None =>
      match s with
      | String a t =>
          if code a =? 46 then
            match digitpart 0 t with
            | Some (m, n, u) =>
                match read_exponent u with Some e => Some (m, e - n) | None => None end
            | None => None
            end
          else None
      | EmptyString => None
      end
  end.

(** White space as [float] strips it: the C white space and the characters
    outside ASCII for which [str.isspace] holds. *)
Definition is_float_space (c : string) : bool :=
  is_space c &&
  match c with
  | String a _ => negb ((28 <=? code a) && (code a <=? 31))
  | EmptyString => false
  end.

Fixpoint drop_float_spaces (l : list string) : list string :=
  match l with
  | [] => []
  | c :: t => if is_float_space c then drop_float_spaces t else l
  end.

Definition float_strip (s : string) : string :=
  concat_all (rev (drop_float_spaces (rev (drop_float_spaces (chars s))))).

(** [float(s)]: [None] stands for ValueError. *)
Definition of_string (s : string) : option spec_float :=
  let (neg, r) := read_sign (float_strip s) in
  let w := lower r in
  if String.eqb w "inf" || String.eqb w "infinity" then Some (S754_infinity neg)
  else if String.eqb w "nan" then Some S754_nan
  else
    match read_number r with
    | Some (m, e) => Some (of_decimal neg m e)
    | None => None
    end.

(** *** Writing a float *)

Definition sign_text (s : bool) : string := if s then "-" else EmptyString.

(** The integer nearest to [a / b] for [b > 0], ties to even. *)
Definition round_half_even (a b : Z) : Z :=
  let q := a / b in
  match 2 * (a mod b) ?= b with
  | Lt => q
  | Gt => q + 1
  | Eq => if Z.even q then q else q + 1
  end.

(** The integer nearest to [m * 2^e * 100]. *)
Definition hundredths (m : positive) (e : Z) : Z :=
  if 0 <=? e then Zpos m * 2 ^ e * 100
  else round_half_even (Zpos m * 100) (2 ^ (- e)).

(** Digits with a comma before each group of three. *)
Fixpoint commas (s : string) : string :=
  match s with
  | EmptyString => EmptyString
  | String a t =>
      String a
        (if negb (String.length t =? 0)%nat && (String.length t mod 3 =? 0)%nat
         then "," ++ commas t else commas t)
  end.

Definition two_digits (n : Z) : string :=
  if n <? 10 then "0" ++ PyStr.of_Z n else PyStr.of_Z n.

(** [format(x, ",.2f")], the format of [f"{x:,.2f}"]. *)
Definition format_2f (x : spec_float) : string :=
  match x with
  | S754_nan => "nan"
  | S754_infinity s => sign_text s ++ "inf"
  | S754_zero s => sign_text s ++ "0.00"
  | S754_finite s m e =>
      let c := hundredths m e in
      sign_text s ++ commas (PyStr.of_Z (c / 100)) ++ "." ++ two_digits (c mod 100)
  end.

Definition ndigits (n : Z) : Z := Z.of_nat (String.length (PyStr.of_Z n)).

(** [a / b < 10 ^ t], for positive [a] and [b]. *)
Definition below_pow10 (a b t : Z) : bool :=
  if 0 <=? t then a <? b * 10 ^ t else a * 10 ^ (- t) <? b.

(** The least [k] with [a / b < 10 ^ k]. *)
Definition magnitude (a b : Z) : Z :=
  let k := ndigits a - ndigits b in
  if below_pow10 a b k then k else k + 1.

(** The integer part of [(a / b) / 10 ^ s]. *)
Definition floor_scaled (a b s : Z) : Z :=
  if 0 <=? s then a / (b * 10 ^ s) else (a * 10 ^ (- s)) / b.

(** Whether [a / b] is nearer to [lo * 10 ^ s] than to [(lo + 1) * 10 ^ s];
    a tie goes to the even one. *)
Definition nearer_lo (a b lo s : Z) : bool :=
  let c := if 0 <=? s then 2 * a ?= (2 * lo + 1) * 10 ^ s * b
           else 2 * a * 10 ^ (- s) ?= (2 * lo + 1) * b in
  match c with
  | Lt => true
  | Gt => false
  | Eq => Z.even lo
  end.

(** The shortest decimal [d * 10 ^ s] that reads back as [x = a / b], trying
    [p], [p + 1], ... digits; of two the nearest to [x]. *)
Fixpoint shortest (fuel : nat) (p : Z) (x : spec_float) (a b k : Z) : Z * Z :=
  match fuel with
  | O => (floor_scaled a b (k - 17), k - 17)
  | S fuel' =>
      let s := k - p in
      let lo := floor_scaled a b s in
      let ok_lo := float_eqb (of_decimal false lo s) x in
      let ok_hi := float_eqb (of_decimal false (lo + 1) s) x in
      if ok_lo && ok_hi then (if nearer_lo a b lo s then lo else lo + 1, s)
      else if ok_lo then (lo, s)
      else if ok_hi then (lo + 1, s)
      else shortest fuel' (p + 1) x a b k
  end.

Fixpoint strip_zeros_rev (l : list ascii) : list ascii :=
  match l with
  | a :: ((_ :: _) as t) => if (code a =? 48) then strip_zeros_rev t else l
  | _ => l
  end.

(** The digits without their trailing zeros. *)
Definition strip_zeros (s : string) : string :=
  string_of_list_ascii (rev (strip_zeros_rev (rev (list_ascii_of_string s)))).

Fixpoint zeros (n : nat) : string :=
  match n with
  | O => EmptyString
  | S n' => "0" ++ zeros n'
  end.

(** The digits [ds] with the decimal point [decpt] places from their start,
    as [repr] lays them out. *)
Definition layout (ds : string) (decpt : Z) : string :=
  let n := Z.of_nat (String.length ds) in
  if (16 <? decpt) || (decpt <? -3) then
    let e := decpt - 1 in
    let mant :=
      match ds with
      | String a EmptyString => ds
      | String a t => String a ("." ++ t)
      | EmptyString => ds
      end in
    mant ++ "e" ++ (if e <? 0 then "-" else "+") ++ two_digits (Z.abs e)
  else if decpt <=? 0 then "0." ++ zeros (Z.to_nat (- decpt)) ++ ds
  else if n <=? decpt then ds ++ zeros (Z.to_nat (decpt - n)) ++ ".0"
  else String.substring 0 (Z.to_nat decpt) ds ++ "."
       ++ String.substring (Z.to_nat decpt) (Z.to_nat (n - decpt)) ds.

(** [repr(x)], which is also [str(x)]. *)
Definition repr (x : spec_float) : string :=
  match x with
  | S754_nan => "nan"
  | S754_infinity s => sign_text s ++ "inf"
  | S754_zero s => sign_text s ++ "0.0"
  | S754_finite s m e =>
      let a := if 0 <=? e then Zpos m * 2 ^ e else Zpos m in
      let b := if 0 <=? e then 1 else 2 ^ (- e) in
      let '(d, sc) := shortest 17 1 (S754_finite false m e) a b (magnitude a b) in
      let ds := PyStr.of_Z d in
      sign_text s ++ layout (strip_zeros ds) (sc + Z.of_nat (String.length ds))
  end.

End PyFloat.

(** ** Values, exceptions and builtins *)

Module Py.

(** The exceptions the code can meet.  The last two come from the services
    the pipeline calls and carry [str(e)]: any exception of the completion
    call, and [requests.exceptions.RequestException] with its subclasses. *)
Inductive exn : Type :=
| TypeError
| AttributeError
| ValueError
| OverflowError
| KeyError
| ServiceError (detail : string)
| RequestException (detail : string).

(** A computation that returns or raises. *)
Inductive res (A : Type) : Type :=
| Ok (a : A)
| Raise (e : exn).

Arguments Ok {A} a.
Arguments Raise {A} e.

Definition bind {A B : Type} (m : res A) (f : A -> res B) : res B :=
  match m with
  | Ok a => f a
  | Raise e => Raise e
  end.

Declare Scope py_scope.
Delimit Scope py_scope with py.
Notation "x <- m ;; k" := (bind m (fun x => k))
  (at level 61, m at next level, right associativity) : py_scope.

#[local] Set Warnings "-register-all".

(** What [json.loads] and [response.json()] produce. *)
Inductive value : Type :=
| VNone
| VBool (b : bool)
| VInt (n : Z)
| VFloat (x : spec_float)
| VStr (s : string)
| VList (l : list value)
| VDict (d : list (string * value)).

(** [bool(v)], the test of [if v], [not v] and [v or w]. *)
Definition truthy (v : value) : bool :=
  match v with
  | VNone => false
  | VBool b => b
  | VInt n => negb (n =? 0)
  | VFloat (S754_zero _) => false
  | VFloat _ => true
  | VStr EmptyString => false
  | VStr _ => true
  | VList [] => false
  | VList _ => true
  | VDict [] => false
  | VDict _ => true
  end.

(** The value stored under key [k]. *)
Fixpoint lookup {A : Type} (k : string) (d : list (string * A)) : option A :=
  match d with
  | [] => None
  | (k', v) :: t => if String.eqb k k' then Some v else lookup k t
  end.

Definition has_key {A : Type} (k : string) (d : list (string * A)) : bool :=
  match lookup k d with
  | Some _ => true
  | None => false
  end.

(** [o.get(k, default)] *)
Definition get (o : value) (k : string) (default : value) : res value :=
  match o with
  | VDict d =>
      match lookup k d with
      | Some v => Ok v
      | None => Ok default
      end
  | _ => Raise AttributeError
  end.

(** [v == s] for a string [s]. *)
Definition eq_str (v : value) (s : string) : bool :=
  match v with
  | VStr t => String.eqb t s
  | _ => false
  end.

(** [s in o] for a string [s]. *)
Definition str_in (s : string) (o : value) : res bool :=
  match o with
  | VDict d => Ok (has_key s d)
  | VList l => Ok (existsb (fun v => eq_str v s) l)
  | VStr t => Ok (PyStr.contains s t)
  | _ => Raise TypeError
  end.

(** [o[k]] for a string [k]. *)
Definition getitem (o : value) (k : string) : res value :=
  match o with
  | VDict d =>
      match lookup k d with
      | Some v => Ok v
      | None => Raise KeyError
      end
  | _ => Raise TypeError
  end.

(** [o.items()] *)
Definition items (o : value) : res (list (string * value)) :=
  match o with
  | VDict d => Ok d
  | _ => Raise AttributeError
  end.

(** [d.get(v)] for a dict [d] with string keys and any key [v]: a list or a
    dict cannot be hashed. *)
Definition find {A : Type} (v : value) (d : list (string * A)) : res (option A) :=
  match v with
  | VStr s => Ok (lookup s d)
  | VList _ | VDict _ => Raise TypeError
  | _ => Ok None
  end.

(** [len(o)] *)
Definition len (o : value) : res Z :=
  match o with
  | VStr s => Ok (PyStr.len s)
  | VList l => Ok (Z.of_nat (List.length l))
  | VDict d => Ok (Z.of_nat (List.length d))
  | _ => Raise TypeError
  end.

(** [o[:n]]; slicing a dict raises (KeyError from Python 3.12 on). *)
Definition slice_to (n : nat) (o : value) : res value :=
  match o with
  | VStr s => Ok (VStr (PyStr.take n s))
  | VList l => Ok (VList (firstn n l))
  | _ => Raise TypeError
  end.

(** The items [for x in o] visits. *)
Definition iter (o : value) : res (list value) :=
  match o with
  | VStr s => Ok (map VStr (PyStr.chars s))
  | VList l => Ok l
  | VDict d => Ok (map (fun kv => VStr (fst kv)) d)
  | _ => Raise TypeError
  end.

(** [n < x] for an int and a float, compared exactly. *)
Definition int_lt_float (n : Z) (x : spec_float) : bool :=
  match x with
  | S754_nan => false
  | S754_infinity s => negb s
  | S754_zero _ => n <? 0
  | S754_finite s m e =>
      let v := if s then Zneg m else Zpos m in
      if 0 <=? e then n <? v * 2 ^ e else n * 2 ^ (- e) <? v
  end.

(** [min(a, n)] for an int [n]: [n] when [n < a], else [a]. *)
Definition min_int (a : value) (n : Z) : res value :=
  match a with
  | VInt m => Ok (if n <? m then VInt n else a)
  | VBool b => Ok (if n <? (if b then 1 else 0) then VInt n else a)
  | VFloat x => Ok (if int_lt_float n x then VInt n else a)
  | _ => Raise TypeError
  end.

(** [v.lower()] *)
Definition lower (v : value) : res string :=
  match v with
  | VStr s => Ok (PyStr.lower s)
  | _ => Raise AttributeError
  end.

(** [float(v)] *)
Definition float (v : value) : res spec_float :=
  match v with
  | VFloat x => Ok x
  | VInt n =>
      match PyFloat.of_Z n with
      | Some x => Ok x
      | None => Raise OverflowError
      end
  | VBool b => Ok (if b then PyFloat.one else PyFloat.zero)
  | VStr s =>
      match PyFloat.of_string s with
      | Some x => Ok x
      | None => Raise ValueError
      end
  | _ => Raise TypeError
  end.

(** The strings of a list of values, as [str.join] demands them. *)
Fixpoint strings (l : list value) : res (list string) :=
  match l with
  | [] => Ok []
  | VStr s :: t => bind (strings t) (fun r => Ok (s :: r))
  | _ :: _ => Raise TypeError
  end.

(** [sep.join(o)] *)
Definition join (sep : string) (o : value) : res string :=
  bind (iter o) (fun items =>
  bind (strings items) (fun l => Ok (PyStr.join sep l))).

(** *** Text of a value: [repr], [str] and [json.dumps] *)

Definition hex_digit (n : Z) : string :=
  PyStr.str1 (PyStr.chr (if n <? 10 then 48 + n else 87 + n)).

Definition hex2 (n : Z) : string := hex_digit (n / 16) ++ hex_digit (n mod 16).

Definition hex4 (n : Z) : string := hex2 (n / 256) ++ hex2 (n mod 256).

Definition has_char (n : Z) (s : string) : bool :=
  existsb (fun a => PyStr.code a =? n) (list_ascii_of_string s).

(** One byte inside the quotes of [repr(s)]; [q] is the quote in use.
    Bytes outside ASCII stand for themselves. *)
Definition repr_byte (q : Z) (a : ascii) : string :=
  let n := PyStr.code a in
  if (n =? 92) || (n =? q) then String (PyStr.chr 92) (PyStr.str1 a)
  else if n =? 9 then String (PyStr.chr 92) "t"
  else if n =? 10 then String (PyStr.chr 92) "n"
  else if n =? 13 then String (PyStr.chr 92) "r"
  else if (n <? 32) || (n =? 127) then String (PyStr.chr 92) ("x" ++ hex2 n)
  else PyStr.str1 a.

(** [repr(s)] for a string. *)
Definition repr_str (s : string) : string :=
  let q := if has_char 39 s && negb (has_char 34 s) then 34 else 39 in
  PyStr.str1 (PyStr.chr q)
  ++ PyStr.concat_all (map (repr_byte q) (list_ascii_of_string s))
  ++ PyStr.str1 (PyStr.chr q).

(** [repr(v)] *)
Fixpoint repr (v : value) : string :=
  match v with
  | VNone => "None"
  | VBool b => if b then "True" else "False"
  | VInt n => PyStr.of_Z n
  | VFloat x => PyFloat.repr x
  | VStr s => repr_str s
  | VList l => "[" ++ PyStr.join ", " (map repr l) ++ "]"
  | VDict d =>
      "{" ++ PyStr.join ", " (map (fun kv : string * value => let (k, w) := kv in repr_str k ++ ": " ++ repr w) d) ++ "}"
  end.

(** [str(v)], the text an f-string puts for [{v}]. *)
Definition str (v : value) : string :=
  match v with
  | VStr s => s
  | _ => repr v
  end.

(** The number of a code point from its UTF-8 bytes. *)
Definition codepoint (c : string) : Z :=
  match c with
  | EmptyString => 0
  | String a t =>
      let n := PyStr.code a in
      let lead := if n <? 128 then n
                  else if n <? 224 then n mod 32
                  else if n <? 240 then n mod 16
                  else n mod 8 in
      fold_left (fun acc b => 64 * acc + PyStr.code b mod 64) (list_ascii_of_string t) lead
  end.

Definition backslash : string := PyStr.str1 (PyStr.chr 92).

(** One character inside the quotes of [json.dumps(s)]. *)
Definition json_char (c : string) : string :=
  let n := codepoint c in
  if n =? 34 then backslash ++ PyStr.dquote
  else if n =? 92 then backslash ++ backslash
  else if n =? 10 then backslash ++ "n"
  else if n =? 13 then backslash ++ "r"
  else if n =? 9 then backslash ++ "t"
  else if n =? 12 then backslash ++ "f"
  else if n =? 8 then backslash ++ "b"
  else if (32 <=? n) && (n <? 127) then c
  else if n <? 65536 then backslash ++ "u" ++ hex4 n
  else
    let m := n - 65536 in
    backslash ++ "u" ++ hex4 (55296 + m / 1024)
    ++ backslash ++ "u" ++ hex4 (56320 + m mod 1024).

Definition json_str (s : string) : string :=
  PyStr.dquote ++ PyStr.concat_all (map json_char (PyStr.chars s)) ++ PyStr.dquote.

Definition json_float (x : spec_float) : string :=
  match x with
  | S754_nan => "NaN"
  | S754_infinity s => PyFloat.sign_text s ++ "Infinity"
  | _ => PyFloat.repr x
  end.

(** [json.dumps(v)] *)
Fixpoint json_dumps (v : value) : string :=
  match v with
  | VNone => "null"
  | VBool b => if b then "true" else "false"
  | VInt n => PyStr.of_Z n
  | VFloat x => json_float x
  | VStr s => json_str s
  | VList l => "[" ++ PyStr.join ", " (map json_dumps l) ++ "]"
  | VDict d =>
      "{" ++ PyStr.join ", " (map (fun kv : string * value => let (k, w) := kv in json_str k ++ ": " ++ json_dumps w) d) ++ "}"
  end.

(** *** Reading JSON: [json.loads] *)

Definition is_ws (a : ascii) : bool :=
  let n := PyStr.code a in (n =? 32) || (n =? 9) || (n =? 10) || (n =? 13).

Fixpoint skip_ws (s : string) : string :=
  match s with
  | String a t => if is_ws a then skip_ws t else s
  | EmptyString => s
  end.

Definition hex_val (a : ascii) : option Z :=
  let n := PyStr.code a in
  if (48 <=? n) && (n <=? 57) then Some (n - 48)
  else if (97 <=? n) && (n <=? 102) then Some (n - 87)
  else if (65 <=? n) && (n <=? 70) then Some (n - 55)
  else None.

Definition hex4_val (a b c d : ascii) : option Z :=
  match hex_val a, hex_val b, hex_val c, hex_val d with
  | Some x, Some y, Some z, Some w => Some (4096 * x + 256 * y + 16 * z + w)
  | _, _, _, _ => None
  end.

(** The UTF-8 bytes of a code point. *)
Definition utf8 (n : Z) : string :=
  if n <? 128 then PyStr.bytes [n]
  else if n <? 2048 then PyStr.bytes [192 + n / 64; 128 + n mod 64]
  else if n <? 65536 then
    PyStr.bytes [224 + n / 4096; 128 + (n / 64) mod 64; 128 + n mod 64]
  else
    PyStr.bytes [240 + n / 262144; 128 + (n / 4096) mod 64;
                 128 + (n / 64) mod 64; 128 + n mod 64].

Definition is_high_surrogate (n : Z) : bool := (55296 <=? n) && (n <=? 56319).
Definition is_low_surrogate (n : Z) : bool := (56320 <=? n) && (n <=? 57343).

(** The character a one-letter escape stands for. *)
Definition simple_escape (a : ascii) : option Z :=
  let n := PyStr.code a in
  if (n =? 34) || (n =? 92) || (n =? 47) then Some n
  else if n =? 98 then Some 8
  else if n =? 102 then Some 12
  else if n =? 110 then Some 10
  else if n =? 114 then Some 13
  else if n =? 116 then Some 9
  else None.

(** A string after its opening quote: its text and what follows the closing
    quote. *)
Fixpoint scan_string (s : string) : option (string * string) :=
  match s with
  | EmptyString => None
  | String a t =>
      let n := PyStr.code a in
      if n =? 34 then Some (EmptyString, t)
      else if n =? 92 then
        match t with
        | String b u =>
            if PyStr.code b =? 117 then
              match u with
              | String h1 (String h2 (String h3 (String h4 v))) =>
                  match hex4_val h1 h2 h3 h4 with
                  | Some c =>
                      let single :=
                        match scan_string v with
                        | Some (r, w) => Some (utf8 c ++ r, w)
                        | None => None
                        end in
                      if is_high_surrogate c then
                        match v with
                        | String b1 (String b2 (String k1 (String k2 (String k3 (String k4 w))))) =>
                            if (PyStr.code b1 =? 92) && (PyStr.code b2 =? 117) then
                              match hex4_val k1 k2 k3 k4 with
                              | Some c2 =>
                                  if is_low_surrogate c2 then
                                    match scan_string w with
                                    | Some (r, x) =>
                                        Some (utf8 (65536 + 1024 * (c - 55296) + (c2 - 56320)) ++ r, x)
                                    | None => None
                                    end
                                  else single
                              | None => None
                              end
                            else single
                        | _ => single
                        end
                      else single
                  | None => None
                  end
              | _ => None
              end
            else
              match simple_escape b with
              | Some c =>
                  match scan_string u with
                  | Some (r, w) => Some (utf8 c ++ r, w)
                  | None => None
                  end
              | None => None
              end
        | EmptyString => None
        end
      else if n <? 32 then None
      else
        match scan_string t with
        | Some (r, w) => Some (String a r, w)
        | None => None
        end
  end.

(** The digits a text starts with, and what follows them. *)
Fixpoint span_digits (s : string) : string * string :=
  match s with
  | String a t =>
      if PyStr.is_digit a then let (d, r) := span_digits t in (String a d, r)
      else (EmptyString, s)
  | EmptyString => (EmptyString, s)
  end.

Fixpoint digits_value (acc : Z) (s : string) : Z :=
  match s with
  | String a t => digits_value (10 * acc + PyFloat.digit_val a) t
  | EmptyString => acc
  end.

(** The integer part of a number: [0], or digits that start with [1-9]. *)
Definition scan_int_digits (s : string) : option (string * string) :=
  match s with
  | String a t =>
      if PyStr.code a =? 48 then Some ("0", t)
      else if PyStr.is_digit a then Some (span_digits s)
      else None
  | EmptyString => None
  end.

(** The fraction [.digits], if one follows. *)
Definition scan_frac (s : string) : string * string :=
  match s with
  | String a ((String b _) as t) =>
      if (PyStr.code a =? 46) && PyStr.is_digit b then
        let (d, r) := span_digits t in (String a d, r)
      else (EmptyString, s)
  | _ => (EmptyString, s)
  end.

(** The exponent [e[+-]digits], if one follows. *)
Definition scan_exp (s : string) : string * string :=
  match s with
  | String a t =>
      if (PyStr.code a =? 101) || (PyStr.code a =? 69) then
        match t with
        | String b u =>
            if (PyStr.code b =? 45) || (PyStr.code b =? 43) then
              match span_digits u with
              | (EmptyString, _) => (EmptyString, s)
              | (d, r) => (String a (String b d), r)
              end
            else
              match span_digits t with
              | (EmptyString, _) => (EmptyString, s)
              | (d, r) => (String a d, r)
              end
        | EmptyString => (EmptyString, s)
        end
      else (EmptyString, s)
  | EmptyString => (EmptyString, s)
  end.

(** The most decimal digits [int] reads from text. *)
Definition int_max_str_digits : nat := 4300.

(** A number: an [int] when it has neither fraction nor exponent, else a
    [float]. *)
Definition scan_number (s : string) : option (value * string) :=
  let (neg, r0) :=
    match s with
    | String a t => if PyStr.code a =? 45 then (true, t) else (false, s)
    | EmptyString => (false, s)
    end in
  match scan_int_digits r0 with
  | Some (i, r1) =>
      let (f, r2) := scan_frac r1 in
      let (e, r3) := scan_exp r2 in
      match f, e with
      | EmptyString, EmptyString =>
          if (int_max_str_digits <? String.length i)%nat then None
          else Some (VInt (if neg then - digits_value 0 i else digits_value 0 i), r3)
      | _, _ =>
          match PyFloat.of_string ((if neg then "-" else EmptyString) ++ i ++ f ++ e) with
          | Some x => Some (VFloat x, r3)
          | None => None
          end
      end
  | None => None
  end.

(** What is left of [s] after the word [w], if [s] starts with it. *)
Fixpoint after_word (w s : string) : option string :=
  match w with
  | EmptyString => Some s
  | String a w' =>
      match s with
      | String b s' => if Ascii.eqb a b then after_word w' s' else None
      | EmptyString => None
      end
  end.

(** [d[k] = v] *)
Fixpoint set_item (k : string) (v : value) (d : list (string * value)) : list (string * value) :=
  match d with
  | [] => [(k, v)]
  | (k', v') :: t => if String.eqb k k' then (k, v) :: t else (k', v') :: set_item k v t
  end.

(** One JSON value at the start of [s], and what follows it.  The recursion
    is bounded by [fuel]. *)
Fixpoint scan_once (fuel : nat) (s : string) : option (value * string) :=
  match fuel with
  | O => None
  | S fuel' =>
      match s with
      | EmptyString => None
      | String a t =>
          let n := PyStr.code a in
          if n =? 34 then
            match scan_string t with
            | Some (r, u) => Some (VStr r, u)
            | None => None
            end
          else if n =? 123 then
            match skip_ws t with
            | String b u =>
                if PyStr.code b =? 125 then Some (VDict [], u)
                else scan_members fuel' (skip_ws t) []
            | EmptyString => None
            end
          else if n =? 91 then
            match skip_ws t with
            | String b u =>
                if PyStr.code b =? 93 then Some (VList [], u)
                else scan_items fuel' (skip_ws t) []
            | EmptyString => None
            end
          else
            match after_word "null" s, after_word "true" s, after_word "false" s with
            | Some u, _, _ => Some (VNone, u)
            | _, Some u, _ => Some (VBool true, u)
            | _, _, Some u => Some (VBool false, u)
            | _, _, _ =>
                match after_word "NaN" s, after_word "Infinity" s, after_word "-Infinity" s with
                | Some u, _, _ => Some (VFloat S754_nan, u)
                | _, Some u, _ => Some (VFloat (S754_infinity false), u)
                | _, _, Some u => Some (VFloat (S754_infinity true), u)
                | _, _, _ => scan_number s
                end
            end
      end
  end

with scan_items (fuel : nat) (s : string) (acc : list value) : option (value * string) :=
  match fuel with
  | O => None
  | S fuel' =>
      match scan_once fuel' s with
      | Some (v, r) =>
          match skip_ws r with
          | String b u =>
              if PyStr.code b =? 93 then Some (VList (acc ++ [v]), u)
              else if PyStr.code b =? 44 then scan_items fuel' (skip_ws u) (acc ++ [v])
              else None
          | EmptyString => None
          end
      | None => None
      end
  end

with scan_members (fuel : nat) (s : string) (acc : list (string * value)) : option (value * string) :=
  match fuel with
  | O => None
  | S fuel' =>
      match s with
      | String q t =>
          if PyStr.code q =? 34 then
            match scan_string t with
            | Some (k, r) =>
                match skip_ws r with
                | String c u =>
                    if PyStr.code c =? 58 then
                      match scan_once fuel' (skip_ws u) with
                      | Some (v, r') =>
                          match skip_ws r' with
                          | String b w =>
                              if PyStr.code b =? 125 then Some (VDict (set_item k v acc), w)
                              else if PyStr.code b =? 44 then
                                scan_members fuel' (skip_ws w) (set_item k v acc)
                              else None
                          | EmptyString => None
                          end
                      | None => None
                      end
                    else None
                | EmptyString => None
                end
            | None => None
            end
          else None
      | EmptyString => None
      end
  end.

(** [json.loads(c)]: the text must be a str holding one JSON value. *)
Definition json_loads (c : value) : res value :=
  match c with
  | VStr s =>
      match scan_once (2 * String.length s + 2) (skip_ws s) with
      | Some (v, r) =>
          match skip_ws r with
          | EmptyString => Ok v
          | _ => Raise ValueError
          end
      | None => Raise ValueError
      end
  | _ => Raise TypeError
  end.

End Py.

(** ** The chatbot *)

Module HubSpotChatbot.
Import Py.
#[local] Open Scope py_scope.

Definition q (s : string) : string := PyStr.dquote ++ s ++ PyStr.dquote.

Definition strs (l : list string) : value := VList (map VStr l).

Definition base_url : string := "https://api.hubapi.com".

(** An entry of [available_endpoints]. *)
Record endpoint_info : Type := {
  endpoint : string;
  description : string;
  properties : list string;
  filters : list string }.

Definition deals_endpoint : endpoint_info :=
  {| endpoint := "/crm/v3/objects/deals";
     description := "Fetch deals data";
     properties := ["dealname"; "amount"; "dealstage"; "closedate"; "pipeline"; "hubspot_owner_id"];
     filters := ["dealstage"; "pipeline"; "amount"] |}.

Definition contacts_endpoint : endpoint_info :=
  {| endpoint := "/crm/v3/objects/contacts";
     description := "Fetch contacts data";
     properties := ["firstname"; "lastname"; "email"; "phone"; "company"; "jobtitle"];
     filters := ["email"; "company"] |}.

Definition companies_endpoint : endpoint_info :=
  {| endpoint := "/crm/v3/objects/companies";
     description := "Fetch companies data";
     properties := ["name"; "domain"; "industry"; "city"; "state"; "country"; "numberofemployees"];
     filters := ["industry"; "city"; "state"] |}.

Definition available_endpoints : list (string * endpoint_info) :=
  [ ("deals", deals_endpoint);
    ("contacts", contacts_endpoint);
    ("companies", companies_endpoint) ].

Definition deal_stages : list (string * string) :=
  [ ("appointmentscheduled", "Appointment Scheduled");
    ("qualifiedtobuy", "Qualified to Buy");
    ("presentationscheduled", "Presentation Scheduled");
    ("decisionmakerboughtin", "Decision Maker Bought-In");
    ("contractsent", "Contract Sent");
    ("closedwon", "Closed Won");
    ("closedlost", "Closed Lost") ].

(** *** [interpret_query] *)

Definition system_prompt : string :=
  PyStr.join PyStr.newline
    [ "You are a HubSpot API query interpreter. Analyze the user's question and extract:";
      "        1. The object type they're asking about (deals, contacts, or companies)";
      "        2. Any filters they want to apply";
      "        3. What specific information they want to see";
      "        ";
      "        Available deal stages: " ++ PyStr.join ", " (map snd deal_stages);
      "        ";
      "        Return a JSON object with:";
      "        - object_type: " ++ q "deals" ++ ", " ++ q "contacts" ++ ", or " ++
      q "companies";
      "        - filters: object with filter criteria";
      "        - properties: array of properties to return";
      "        - limit: number of results (default 10)";
      "        - summary_type: " ++ q "list" ++ ", " ++ q "count" ++ ", " ++ q "total" ++
      " (for aggregations)";
      "        ";
      "        Examples:";
      "        " ++ q "What deals are in negotiation?" ++ " -> {" ++ q "object_type" ++
      ": " ++ q "deals" ++ ", " ++ q "filters" ++ ": {" ++ q "dealstage" ++ ": " ++
      q "decisionmakerboughtin" ++ "}, " ++ q "properties" ++ ": [" ++ q "dealname" ++
      ", " ++ q "amount" ++ ", " ++ q "closedate" ++ "], " ++ q "limit" ++ ": 10, " ++
      q "summary_type" ++ ": " ++ q "list" ++ "}";
      "        " ++ q "How many contacts do we have?" ++ " -> {" ++ q "object_type" ++
      ": " ++ q "contacts" ++ ", " ++ q "filters" ++ ": {}, " ++ q "properties" ++ ": [" ++
      q "email" ++ "], " ++ q "limit" ++ ": 1000, " ++ q "summary_type" ++ ": " ++
      q "count" ++ "}";
      "        " ++ q "Total value of deals in contract sent stage?" ++ " -> {" ++
      q "object_type" ++ ": " ++ q "deals" ++ ", " ++ q "filters" ++ ": {" ++
      q "dealstage" ++ ": " ++ q "contractsent" ++ "}, " ++ q "properties" ++ ": [" ++
      q "amount" ++ "], " ++ q "limit" ++ ": 1000, " ++ q "summary_type" ++ ": " ++
      q "total" ++ "}";
      "        " ].

(** What the [try] block of [interpret_query] gets from the completion
    service: an exception, or [response.choices[0].message.content]. *)
Inductive completion : Type :=
| CallRaised (e : exn)
| Content (c : value).

(** A message given to [st.error]: its fixed text and the exception whose
    [str] follows it. *)
Definition diagnostic : Type := (string * exn)%type.

(** The interpretation returned when the [try] block raises. *)
Definition fallback : value :=
  VDict [ ("object_type", VStr "deals");
          ("filters", VDict []);
          ("properties", strs ["dealname"; "amount"]);
          ("limit", VInt 10);
          ("summary_type", VStr "list") ].

(** The [try] block. *)
Definition interpret_body (create : string -> string -> completion) (user_query : string)
  : res value :=
  match create system_prompt user_query with
  | CallRaised e => Raise e
  | Content c => json_loads c
  end.

Definition interpret_query (create : string -> string -> completion) (user_query : string)
  : value * list diagnostic :=
  match interpret_body create user_query with
  | Ok v => (v, [])
  | Raise e => (fallback, [("Error interpreting query: ", e)])
  end.

(** *** [build_api_request] *)

(** The loop over [deal_stages.items()] (lines 170-173): the key of the first
    stage whose name holds, or is held in, the value; else the value. *)
Fixpoint stage_key_for (stages : list (string * string)) (value : Py.value) : res Py.value :=
  match stages with
  | [] => Ok value
  | (stage_key, stage_name) :: rest =>
      v <- lower value ;;
      if PyStr.contains (PyStr.lower stage_name) v || PyStr.contains v (PyStr.lower stage_name)
      then Ok (VStr stage_key)
      else stage_key_for rest value
  end.

Definition filter_group (key : string) (value : Py.value) : Py.value :=
  VDict [ ("filters",
           VList [ VDict [ ("propertyName", VStr key);
                           ("operator", VStr "EQ");
                           ("value", value) ] ]) ].

(** The loop over [filters.items()] (lines 166-181). *)
Fixpoint filter_loop (object_type : Py.value) (items : list (string * Py.value))
  (filter_groups : list Py.value) : res (list Py.value) :=
  match items with
  | [] => Ok filter_groups
  | (key, value) :: rest =>
      value <- (if String.eqb key "dealstage" && eq_str object_type "deals"
                then stage_key_for deal_stages value
                else Ok value) ;;
      filter_loop object_type rest (filter_groups ++ [filter_group key value])%list
  end.

Definition build_api_request (hubspot_api_key : string) (interpretation : value) : res value :=
  object_type <- get interpretation "object_type" (VStr "deals") ;;
  found <- find object_type available_endpoints ;;
  let endpoint_info := match found with Some e => e | None => deals_endpoint end in
  let url := base_url ++ endpoint endpoint_info in
  limit <- get interpretation "limit" (VInt 10) ;;
  limit <- min_int limit 100 ;;
  props <- get interpretation "properties" (strs (firstn 3 (properties endpoint_info))) ;;
  props <- join "," props ;;
  let params := [("limit", limit); ("properties", VStr props)] in
  filters <- get interpretation "filters" (VDict []) ;;
  params <-
    (if truthy filters then
       its <- items filters ;;
       filter_groups <- filter_loop object_type its [] ;;
       if truthy (VList filter_groups)
       then Ok (params ++ [("filterGroups", VStr (json_dumps (VList filter_groups)))])%list
       else Ok params
     else Ok params) ;;
  Ok (VDict [ ("url", VStr url);
              ("params", VDict params);
              ("headers",
               VDict [ ("Authorization", VStr ("Bearer " ++ hubspot_api_key));
                       ("Content-Type", VStr "application/json") ]) ]).

(** *** [fetch_hubspot_data] *)

(** What [requests.get], [raise_for_status] and [response.json] do for a
    request: raise, or give the payload. *)
Inductive response : Type :=
| GetRaised (e : exn)
| Json (v : value).

Definition fetch_hubspot_data (requests_get : value -> value -> value -> response)
  (request_config : value) : res value * list diagnostic :=
  let body :=
    url <- getitem request_config "url" ;;
    params <- getitem request_config "params" ;;
    headers <- getitem request_config "headers" ;;
    match requests_get url params headers with
    | GetRaised e => Raise e
    | Json v => Ok v
    end in
  match body with
  | Raise (RequestException detail) =>
      (Ok (VDict [("results", VList []); ("error", VStr detail)]),
       [("Error fetching data from HubSpot: ", RequestException detail)])
  | r => (r, [])
  end.

(** *** [format_response] *)

(** One term of the sum of line 226. *)
Definition amount_of (r : value) : res spec_float :=
  props <- get r "properties" (VDict []) ;;
  amount <- get props "amount" (VInt 0) ;;
  float (if truthy amount then amount else VInt 0).

(** [sum(...)] of line 226 over the items not yet added. *)
Fixpoint sum_amounts (results : list value) (total : spec_float) : res spec_float :=
  match results with
  | [] => Ok total
  | r :: rest =>
      x <- amount_of r ;;
      sum_amounts rest (PyFloat.add total x)
  end.

(** Lines 246-250. *)
Definition amount_text (amount : value) : string :=
  match float amount with
  | Ok amount_num => "$" ++ PyFloat.format_2f amount_num
  | Raise _ => "N/A"
  end.

(** The lines a deal adds to [response_parts] (lines 236-257). *)
Definition deal_parts (i : Z) (props : value) : res (list string) :=
  name <- get props "dealname" (VStr "Unnamed Deal") ;;
  amount <- get props "amount" (VStr "0") ;;
  stage <- get props "dealstage" (VStr "N/A") ;;
  closedate <- get props "closedate" (VStr "N/A") ;;
  known <- find stage deal_stages ;;
  let stage := match known with Some label => VStr label | None => stage end in
  let amount_str := amount_text amount in
  let parts :=
    [ "**" ++ PyStr.of_Z i ++ ".** 🏷️ " ++ str name;
      "   - 💵 Amount: " ++ amount_str;
      "   - 📊 Stage: " ++ str stage ] in
  parts <-
    (if negb (eq_str closedate "N/A") then
       day <- slice_to 10 closedate ;;
       Ok (parts ++ [("   - 📅 Close Date: " ++ str day)%string])%list
     else Ok parts) ;;
  Ok (parts ++ [EmptyString])%list.

(** The lines a contact adds (lines 260-270). *)
Definition contact_parts (i : Z) (props : value) : res (list string) :=
  first <- get props "firstname" (VStr EmptyString) ;;
  last <- get props "lastname" (VStr EmptyString) ;;
  email <- get props "email" (VStr "N/A") ;;
  company <- get props "company" (VStr "N/A") ;;
  let full := PyStr.strip (str first ++ " " ++ str last) in
  let name := if truthy (VStr full) then full else "Unnamed Contact" in
  let parts :=
    [ "**" ++ PyStr.of_Z i ++ ".** 👤 " ++ name;
      "   - 📧 Email: " ++ str email ] in
  let parts :=
    if negb (eq_str company "N/A")
    then (parts ++ [("   - 🏢 Company: " ++ str company)%string])%list
    else parts in
  Ok (parts ++ [EmptyString])%list.

(** The lines a company adds (lines 273-282). *)
Definition company_parts (i : Z) (props : value) : res (list string) :=
  name <- get props "name" (VStr "Unnamed Company") ;;
  industry <- get props "industry" (VStr "N/A") ;;
  domain <- get props "domain" (VStr "N/A") ;;
  let parts := [ "**" ++ PyStr.of_Z i ++ ".** 🏢 " ++ str name ] in
  let parts :=
    if negb (eq_str industry "N/A")
    then (parts ++ [("   - 🏭 Industry: " ++ str industry)%string])%list
    else parts in
  let parts :=
    if negb (eq_str domain "N/A")
    then (parts ++ [("   - 🌐 Domain: " ++ str domain)%string])%list
    else parts in
  Ok (parts ++ [EmptyString])%list.

(** The body of the loop of line 232 for the [i]-th result. *)
Definition record_parts (object_type : value) (i : Z) (result : value) : res (list string) :=
  props <- get result "properties" (VDict []) ;;
  if eq_str object_type "deals" then deal_parts i props
  else if eq_str object_type "contacts" then contact_parts i props
  else if eq_str object_type "companies" then company_parts i props
  else Ok [].

(** The loop of line 232 from the [i]-th result on. *)
Fixpoint list_loop (object_type : value) (i : Z) (results : list value)
  (response_parts : list string) : res (list string) :=
  match results with
  | [] => Ok response_parts
  | result :: rest =>
      parts <- record_parts object_type i result ;;
      list_loop object_type (i + 1) rest (response_parts ++ parts)%list
  end.

Definition format_response (data interpretation : value) : res string :=
  failed <- str_in "error" data ;;
  if failed then
    e <- getitem data "error" ;;
    Ok ("❌ Sorry, I encountered an error: " ++ str e)
  else
    results <- get data "results" (VList []) ;;
    if negb (truthy results) then Ok "🔍 I couldn't find any matching records."
    else
      object_type <- get interpretation "object_type" (VStr "records") ;;
      summary_type <- get interpretation "summary_type" (VStr "list") ;;
      if eq_str summary_type "count" then
        n <- len results ;;
        Ok ("📊 Total " ++ str object_type ++ ": **" ++ PyStr.of_Z n ++ "**")
      else if eq_str summary_type "total" && eq_str object_type "deals" then
        rs <- iter results ;;
        total <- sum_amounts rs PyFloat.zero ;;
        n <- len results ;;
        Ok ("💰 Total deal value: **$" ++ PyFloat.format_2f total
            ++ "** across " ++ PyStr.of_Z n ++ " deals")
      else
        n <- len results ;;
        let response_parts :=
          ["📋 I found **" ++ PyStr.of_Z n ++ " " ++ str object_type ++ "**:" ++ PyStr.newline] in
        shown <- slice_to 10 results ;;
        rs <- iter shown ;;
        response_parts <- list_loop object_type 1 rs response_parts ;;
        let response_parts :=
          if 10 <? n
          then (response_parts
                ++ [(PyStr.newline ++ "_...and " ++ PyStr.of_Z (n - 10)
                     ++ " more results._")%string])%list
          else response_parts in
        Ok (PyStr.join PyStr.newline response_parts).

(** *** [process_query] *)

Definition process_query
  (create : string -> string -> completion)
  (requests_get : value -> value -> value -> response)
  (hubspot_api_key : string) (user_query : string) : res string * list diagnostic :=
  let (interpretation, d1) := interpret_query create user_query in
  match build_api_request hubspot_api_key interpretation with
  | Raise e => (Raise e, d1)
  | Ok request_config =>
      let (fetched, d2) := fetch_hubspot_data requests_get request_config in
      match fetched with
      | Raise e => (Raise e, (d1 ++ d2)%list)
      | Ok data => (format_response data interpretation, (d1 ++ d2)%list)
      end
  end.

End HubSpotChatbot.

(** * Properties *)

Import Py.
Import HubSpotChatbot.

(** ** Inputs that have the types of the data model *)

Definition is_str (v : value) : bool :=
  match v with VStr _ => true | _ => false end.

Definition is_int (v : value) : bool :=
  match v with VInt _ => true | _ => false end.

Definition is_str_list (v : value) : bool :=
  match v with VList l => forallb is_str l | _ => false end.

Definition is_str_dict (v : value) : bool :=
  match v with VDict d => forallb (fun kv => is_str (snd kv)) d | _ => false end.

(** A string, a number or null. *)
Definition is_scalar (v : value) : bool :=
  match v with VList _ | VDict _ => false | _ => true end.

Definition absent_or (p : value -> bool) (o : option value) : bool :=
  match o with
  | None => true
  | Some v => p v
  end.

(** A Query Intent: a mapping whose fields, where present, are an object type
    that is a string, an integer limit, a sequence of property names and a
    mapping from property names to strings. *)
Definition typed_intent (i : value) : bool :=
  match i with
  | VDict d =>
      absent_or is_str (lookup "object_type" d)
      && absent_or is_int (lookup "limit" d)
      && absent_or is_str_list (lookup "properties" d)
      && absent_or is_str_dict (lookup "filters" d)
  | _ => false
  end.

(** A Record: a mapping whose properties, where present, map names to
    strings, numbers or null. *)
Definition typed_record (r : value) : bool :=
  match r with
  | VDict f =>
      match lookup "properties" f with
      | None => true
      | Some (VDict p) => forallb (fun kv => is_scalar (snd kv)) p
      | Some _ => false
      end
  | _ => false
  end.

(** A Result Set: a mapping that carries an error, or whose results, where
    present, are a sequence of Records. *)
Definition typed_result_set (data : value) : bool :=
  match data with
  | VDict f =>
      has_key "error" f
      || match lookup "results" f with
         | None => true
         | Some (VList rs) => forallb typed_record rs
         | Some _ => false
         end
  | _ => false
  end.

Definition results_of (data : value) : list value :=
  match data with
  | VDict f => match lookup "results" f with Some (VList rs) => rs | _ => [] end
  | _ => []
  end.

Definition properties_of (r : value) : list (string * value) :=
  match r with
  | VDict f => match lookup "properties" f with Some (VDict p) => p | _ => [] end
  | _ => []
  end.

(** ** What the Request Builder reads from an Intent *)

(** The strings of a list of values. *)
Fixpoint texts (l : list value) : list string :=
  match l with
  | [] => []
  | VStr s :: t => s :: texts t
  | _ :: t => texts t
  end.

Definition requested_type (d : list (string * value)) : value :=
  match lookup "object_type" d with Some v => v | None => VStr "deals" end.

Definition entry_for (object_type : value) : endpoint_info :=
  match find object_type available_endpoints with
  | Ok (Some e) => e
  | _ => deals_endpoint
  end.

Definition requested_limit (d : list (string * value)) : Z :=
  match lookup "limit" d with Some (VInt n) => n | _ => 10 end.

Definition requested_properties (d : list (string * value)) : list string :=
  match lookup "properties" d with
  | Some (VList l) => texts l
  | _ => firstn 3 (properties (entry_for (requested_type d)))
  end.

(** The stage key the loop of lines 170-173 finds for a string. *)
Fixpoint stage_code (stages : list (string * string)) (s : string) : string :=
  match stages with
  | [] => s
  | (stage_key, stage_name) :: rest =>
      if PyStr.contains (PyStr.lower stage_name) (PyStr.lower s)
         || PyStr.contains (PyStr.lower s) (PyStr.lower stage_name)
      then stage_key
      else stage_code rest s
  end.

(** The value a filter is sent with. *)
Definition sent_value (object_type : value) (key : string) (v : value) : value :=
  match v with
  | VStr s =>
      if String.eqb key "dealstage" && eq_str object_type "deals"
      then VStr (stage_code deal_stages s)
      else v
  | _ => v
  end.

Definition sent_groups (object_type : value) (its : list (string * value)) : list value :=
  map (fun kv => filter_group (fst kv) (sent_value object_type (fst kv) (snd kv))) its.

(** The filter parameter of the request, if the Intent has filters. *)
Definition sent_filters (d : list (string * value)) : list (string * value) :=
  match lookup "filters" d with
  | Some (VDict ((_ :: _) as its)) =>
      [("filterGroups", VStr (json_dumps (VList (sent_groups (requested_type d) its))))]
  | _ => []
  end.

(** The API Request with the given endpoint and parameters. *)
Definition request_of (key : string) (e : endpoint_info) (params : list (string * value)) : value :=
  VDict [ ("url", VStr (base_url ++ endpoint e));
          ("params", VDict params);
          ("headers",
           VDict [ ("Authorization", VStr ("Bearer " ++ key));
                   ("Content-Type", VStr "application/json") ]) ].

(** The parameter [name] of a built request. *)
Definition param (name : string) (built : res value) : res value :=
  (req <- built ;; params <- getitem req "params" ;; getitem params name)%py.

(** An Intent that filters deals by the stage [v]. *)
Definition dealstage_intent (v : string) : list (string * value) :=
  [("object_type", VStr "deals"); ("filters", VDict [("dealstage", VStr v)])].

(** The mapping [d] with [k] set to [v] unless [d] has [k]. *)
Definition fill (k : string) (v : value) (d : list (string * value)) : list (string * value) :=
  if has_key k d then d else (d ++ [(k, v)])%list.

(** An Intent with the defaults the Request Builder uses for missing fields. *)
Definition with_builder_defaults (d : list (string * value)) : list (string * value) :=
  fill "filters" (VDict [])
    (fill "properties" (strs (firstn 3 (properties (entry_for (requested_type d)))))
       (fill "limit" (VInt 10)
          (fill "object_type" (VStr "deals") d))).

(** An Intent with the defaults the Formatter uses for missing fields. *)
Definition with_formatter_defaults (d : list (string * value)) : list (string * value) :=
  fill "summary_type" (VStr "list") (fill "object_type" (VStr "records") d).

(** ** What the Formatter reads from an Intent *)

Definition shown_type (d : list (string * value)) : value :=
  match lookup "object_type" d with Some v => v | None => VStr "records" end.

Definition shown_summary (d : list (string * value)) : value :=
  match lookup "summary_type" d with Some v => v | None => VStr "list" end.

Definition count_mode (d : list (string * value)) : bool :=
  eq_str (shown_summary d) "count".

Definition total_mode (d : list (string * value)) : bool :=
  eq_str (shown_summary d) "total" && eq_str (shown_type d) "deals".

Definition list_mode (d : list (string * value)) : bool :=
  negb (count_mode d) && negb (total_mode d).

(** The object types the list has a paragraph for. *)
Definition known_type (object_type : value) : bool :=
  eq_str object_type "deals" || eq_str object_type "contacts" || eq_str object_type "companies".

(** The close date of a record is absent or a string. *)
Definition close_date_shown (r : value) : bool :=
  match lookup "closedate" (properties_of r) with
  | None | Some (VStr _) => true
  | Some _ => false
  end.

(** The amount of a record is absent, null, empty, a number that [float]
    takes, or text that [float] reads. *)
Definition amount_converts (r : value) : bool :=
  match lookup "amount" (properties_of r) with
  | None | Some VNone | Some (VBool _) | Some (VFloat _) => true
  | Some (VInt n) => match PyFloat.of_Z n with Some _ => true | None => false end
  | Some (VStr s) =>
      match s, PyFloat.of_string s with
      | EmptyString, _ | _, Some _ => true
      | _, None => false
      end
  | Some _ => false
  end.

(** The records the mode of the Intent [d] reads can be rendered. *)
Definition renders (d : list (string * value)) (rs : list value) : bool :=
  if count_mode d then true
  else if total_mode d then forallb amount_converts rs
  else if eq_str (shown_type d) "deals" then forallb close_date_shown (firstn 10 rs)
  else true.

(** The lines of the [i]-th record. *)
Definition paragraph (object_type : value) (i : Z) (r : value) : list string :=
  match record_parts object_type i r with
  | Ok parts => parts
  | Raise _ => []
  end.

(** The paragraphs of the records numbered from [i]. *)
Fixpoint paragraphs (object_type : value) (i : Z) (rs : list value) : list (list string) :=
  match rs with
  | [] => []
  | r :: rest => paragraph object_type i r :: paragraphs object_type (i + 1) rest
  end.

(** The first line of the list. *)
Definition header (n : Z) (object_type : value) : string :=
  "📋 I found **" ++ PyStr.of_Z n ++ " " ++ str object_type ++ "**:" ++ PyStr.newline.

(** The line that ends a list of more than ten results. *)
Definition note_lines (n : Z) : list string :=
  if 10 <? n
  then [PyStr.newline ++ "_...and " ++ PyStr.of_Z (n - 10) ++ " more results._"]
  else [].

(** A paragraph opens with the number [i] in bold. *)
Definition numbered (i : Z) (parts : list string) : Prop :=
  exists title rest, parts = ("**" ++ PyStr.of_Z i ++ ".** " ++ title) :: rest.

(** A deal record with the given properties. *)
Definition deal (p : list (string * value)) : value := VDict [("properties", VDict p)].

(** The Intent that asks for [summary_type] over [object_type]. *)
Definition intent (object_type summary_type : string) : value :=
  VDict [("object_type", VStr object_type); ("summary_type", VStr summary_type)].

(** A completion service that answers every question with [text]. *)
Definition answers (text : string) : string -> string -> completion :=
  fun _ _ => Content (VStr text).

(** A transport that fails every request with [detail]. *)
Definition fails_with (detail : string) : value -> value -> value -> response :=
  fun _ _ _ => GetRaised (RequestException detail).

(** ** Further definitions *)

(** The headers of every request. *)
Definition headers_of (key : string) : value :=
  VDict [ ("Authorization", VStr ("Bearer " ++ key));
          ("Content-Type", VStr "application/json") ].

(** A value that can be a dict key. *)
Definition hashable (v : value) : bool :=
  match v with VList _ | VDict _ => false | _ => true end.

(** An int, a bool or a float. *)
Definition is_number (v : value) : bool :=
  match v with VInt _ | VBool _ | VFloat _ => true | _ => false end.

(** A value [str.join] accepts: strings only come out of it. *)
Definition joinable (v : value) : bool :=
  match v with
  | VList l => forallb is_str l
  | VStr _ | VDict _ => true
  | _ => false
  end.

(** A filter the loop of lines 166-181 can take. *)
Definition filter_ok (object_type : value) (kv : string * value) : bool :=
  negb (String.eqb (fst kv) "dealstage" && eq_str object_type "deals") || is_str (snd kv).

(** Filters the builder can take: nothing, or a mapping of such filters. *)
Definition filters_ok (object_type : value) (f : value) : bool :=
  if truthy f then
    match f with
    | VDict its => forallb (filter_ok object_type) its
    | _ => false
    end
  else true.

(** The Intents the Request Builder returns a request for. *)
Definition buildable (i : value) : bool :=
  match i with
  | VDict d =>
      hashable (requested_type d)
      && is_number (match lookup "limit" d with Some v => v | None => VInt 10 end)
      && absent_or joinable (lookup "properties" d)
      && absent_or (filters_ok (requested_type d)) (lookup "filters" d)
  | _ => false
  end.


(** Whether a computation returns. *)
Definition is_ok {A : Type} (r : res A) : bool :=
  match r with Ok _ => true | Raise _ => false end.

(** The object type whose endpoint a request goes to. *)
Definition catalog_type (object_type : value) : string :=
  match object_type with
  | VStr s => if has_key s available_endpoints then s else "deals"
  | _ => "deals"
  end.

(** A mapping. *)
Definition is_dict (v : value) : bool :=
  match v with VDict _ => true | _ => false end.

(** The amount line 226 adds for a record: 0 when the sum cannot read it. *)
Definition amount_value (r : value) : spec_float :=
  match amount_of r with
  | Ok x => x
  | Raise _ => PyFloat.zero
  end.

(** The amount of a record is absent, null, empty or zero. *)
Definition amount_blank (r : value) : bool :=
  match lookup "amount" (properties_of r) with
  | None => true
  | Some a => negb (truthy a)
  end.

(** The close date of a record is present and neither text nor a list. *)
Definition close_date_unsliceable (r : value) : bool :=
  match lookup "closedate" (properties_of r) with
  | Some (VStr _) | Some (VList _) | None => false
  | Some _ => true
  end.

(** The test of line 171 for a stage and a text. *)
Definition stage_matches (s : string) (stage : string * string) : bool :=
  PyStr.contains (PyStr.lower (snd stage)) (PyStr.lower s)
  || PyStr.contains (PyStr.lower s) (PyStr.lower (snd stage)).

(** ** Lemmas on the Request Builder *)

Section BuilderLemmas.

Lemma strings_texts (l : list value) :
  forallb is_str l = true -> strings l = Ok (texts l).
Proof.
  induction l as [|v l IH]; simpl; [reflexivity|].
  destruct v; simpl; try discriminate.
  intros H. rewrite (IH H). reflexivity.
Qed.

Lemma stage_key_for_str (stages : list (string * string)) (s : string) :
  stage_key_for stages (VStr s) = Ok (VStr (stage_code stages s)).
Proof.
  induction stages as [|[k n] rest IH]; simpl; [reflexivity|].
  destruct (PyStr.contains (PyStr.lower n) (PyStr.lower s)
            || PyStr.contains (PyStr.lower s) (PyStr.lower n)); [reflexivity|exact IH].
Qed.

Lemma filter_loop_str (ot : value) (its : list (string * value)) :
  forallb (fun kv => is_str (snd kv)) its = true ->
  forall acc, filter_loop ot its acc = Ok (acc ++ sent_groups ot its)%list.
Proof.
  induction its as [|[k v] rest IH]; intros H acc.
  - simpl. now rewrite app_nil_r.
  - simpl in H. apply andb_prop in H. destruct H as [Hv Hrest].
    destruct v; try discriminate.
    cbn [filter_loop sent_groups map fst snd sent_value].
    destruct (String.eqb k "dealstage" && eq_str ot "deals").
    + rewrite stage_key_for_str. cbn [bind].
      rewrite (IH Hrest). now rewrite <- app_assoc.
    + cbn [bind]. rewrite (IH Hrest). now rewrite <- app_assoc.
Qed.

Lemma strings_map_VStr (l : list string) : strings (map VStr l) = Ok l.
Proof. induction l; simpl; [reflexivity|]. now rewrite IHl. Qed.

Lemma join_strs (sep : string) (l : list string) :
  join sep (strs l) = Ok (PyStr.join sep l).
Proof. unfold join, strs. simpl. now rewrite strings_map_VStr. Qed.

Lemma join_typed (sep : string) (l : list value) :
  forallb is_str l = true -> join sep (VList l) = Ok (PyStr.join sep (texts l)).
Proof. intros H. unfold join. simpl. now rewrite (strings_texts l H). Qed.

Lemma texts_strs (l : list string) : texts (map VStr l) = l.
Proof. induction l; simpl; [reflexivity|]. now rewrite IHl. Qed.

Lemma min_int_int (n : Z) : min_int (VInt n) 100 = Ok (VInt (Z.min n 100)).
Proof.
  unfold min_int. destruct (100 <? n) eqn:E.
  - apply Z.ltb_lt in E. now rewrite Z.min_r by lia.
  - apply Z.ltb_ge in E. now rewrite Z.min_l by lia.
Qed.

(** Lines 164-184 for filters that are strings. *)
Lemma filters_typed (ot : value) (its params : list (string * value)) :
  forallb (fun kv => is_str (snd kv)) its = true ->
  (if truthy (VDict its) then
     bind (items (VDict its)) (fun its0 =>
     bind (filter_loop ot its0 []) (fun filter_groups =>
       if truthy (VList filter_groups)
       then Ok (params ++ [("filterGroups", VStr (json_dumps (VList filter_groups)))])%list
       else Ok params))
   else Ok params)
  = Ok (params ++ match its with
                  | _ :: _ => [("filterGroups", VStr (json_dumps (VList (sent_groups ot its))))]
                  | [] => []
                  end)%list.
Proof.
  intros H. destruct its as [|kv rest].
  - simpl. now rewrite app_nil_r.
  - cbn [truthy items bind]. rewrite (filter_loop_str ot _ H). cbn [bind app].
    destruct kv as [k v]. reflexivity.
Qed.

(** The Request Builder on a typed Intent. *)
Lemma build_typed (key : string) (d : list (string * value)) :
  typed_intent (VDict d) = true ->
  build_api_request key (VDict d)
  = Ok (request_of key (entry_for (requested_type d))
          ([ ("limit", VInt (Z.min (requested_limit d) 100));
             ("properties", VStr (PyStr.join "," (requested_properties d))) ]
           ++ sent_filters d)%list).
Proof.
  unfold typed_intent. intros H.
  apply andb_prop in H. destruct H as [H Hf].
  apply andb_prop in H. destruct H as [H Hp].
  apply andb_prop in H. destruct H as [Ho Hl].
  unfold build_api_request, requested_type, requested_limit, requested_properties,
    sent_filters, requested_type, get.
  destruct (lookup "object_type" d) as [ot|]; [destruct ot; try discriminate|];
  destruct (lookup "limit" d) as [li|]; try (destruct li; try discriminate);
  destruct (lookup "properties" d) as [pr|]; try (destruct pr; try discriminate);
  destruct (lookup "filters" d) as [fi|]; try (destruct fi; try discriminate);
  cbn [bind absent_or is_str_list is_str_dict] in *.
  all: unfold entry_for; cbn [find bind];
    try rewrite min_int_int; cbn [min_int bind Z.ltb Z.compare Z.min];
    try rewrite (join_typed _ _ Hp); try rewrite join_strs; cbn [bind];
    try rewrite (filters_typed _ _ _ Hf);
    try rewrite (filters_typed _ [] _ eq_refl); cbn [bind]; reflexivity.
Qed.

Lemma param_limit (key : string) (e : endpoint_info) (l p : value) (rest : list (string * value)) :
  param "limit" (Ok (request_of key e (("limit", l) :: ("properties", p) :: rest))) = Ok l.
Proof. reflexivity. Qed.

Lemma param_properties (key : string) (e : endpoint_info) (l p : value) (rest : list (string * value)) :
  param "properties" (Ok (request_of key e (("limit", l) :: ("properties", p) :: rest))) = Ok p.
Proof. reflexivity. Qed.

Lemma stage_code_of_label (code label v : string) :
  In (code, label) deal_stages ->
  PyStr.lower v = PyStr.lower label ->
  stage_code deal_stages v = code.
Proof.
  intros Hin Hv. unfold deal_stages in Hin. simpl in Hin.
  unfold stage_code, deal_stages. rewrite Hv.
  repeat (destruct Hin as [Hin|Hin]; [injection Hin as <- <-; vm_compute; reflexivity|]).
  contradiction.
Qed.

Lemma lookup_app_absent {A : Type} (k k' : string) (v : A) (d : list (string * A)) :
  lookup k d = None ->
  lookup k' (d ++ [(k, v)]) = if String.eqb k' k then Some v else lookup k' d.
Proof.
  induction d as [|[k0 v0] d IH]; simpl; intros H.
  - reflexivity.
  - destruct (String.eqb k k0) eqn:E; [discriminate|].
    destruct (String.eqb k' k0) eqn:E'.
    + apply String.eqb_eq in E'. subst k0.
      destruct (String.eqb k' k) eqn:E''; [|reflexivity].
      apply String.eqb_eq in E''. subst. now rewrite String.eqb_refl in E.
    + now apply IH.
Qed.

Lemma lookup_fill (k k' : string) (v : value) (d : list (string * value)) :
  lookup k' (fill k v d)
  = match lookup k' d with
    | Some w => Some w
    | None => if String.eqb k' k then Some v else None
    end.
Proof.
  unfold fill, has_key. destruct (lookup k d) as [w|] eqn:E.
  - destruct (lookup k' d) eqn:E'; [reflexivity|].
    destruct (String.eqb k' k) eqn:E''; [|reflexivity].
    apply String.eqb_eq in E''. subst. congruence.
  - rewrite (lookup_app_absent k k' v d E).
    destruct (String.eqb k' k) eqn:E''.
    + apply String.eqb_eq in E''. subst. now rewrite E.
    + now destruct (lookup k' d).
Qed.

Lemma build_reads_defaults (key : string) (d : list (string * value)) :
  build_api_request key (VDict (with_builder_defaults d)) = build_api_request key (VDict d).
Proof.
  unfold build_api_request, get, with_builder_defaults.
  repeat rewrite lookup_fill. cbn [String.eqb Ascii.eqb Bool.eqb].
  unfold requested_type, entry_for.
  destruct (lookup "object_type" d) as [ot|]; cbn [bind].
  - destruct (find ot available_endpoints) as [found|]; cbn [bind]; [|reflexivity].
    destruct (lookup "limit" d); cbn [bind];
    destruct (lookup "properties" d); cbn [bind];
    destruct (lookup "filters" d); cbn [bind]; try reflexivity.
    all: destruct found; reflexivity.
  - destruct (lookup "limit" d); cbn [bind];
    destruct (lookup "properties" d); cbn [bind];
    destruct (lookup "filters" d); cbn [bind]; reflexivity.
Qed.

Lemma format_reads_defaults (data : value) (d : list (string * value)) :
  format_response data (VDict (with_formatter_defaults d)) = format_response data (VDict d).
Proof.
  unfold format_response, get, with_formatter_defaults.
  repeat rewrite lookup_fill. cbn [String.eqb Ascii.eqb Bool.eqb].
  destruct (lookup "object_type" d); destruct (lookup "summary_type" d); reflexivity.
Qed.

End BuilderLemmas.
(** ** Lemmas on the Response Formatter *)

Section FormatterLemmas.

Lemma get_dict (p : list (string * value)) (k : string) (dflt : value) :
  get (VDict p) k dflt = Ok (match lookup k p with Some v => v | None => dflt end).
Proof. unfold get. now destruct (lookup k p). Qed.

Lemma record_properties (r : value) :
  typed_record r = true ->
  get r "properties" (VDict []) = Ok (VDict (properties_of r))
  /\ forallb (fun kv => is_scalar (snd kv)) (properties_of r) = true.
Proof.
  unfold typed_record, properties_of. destruct r; try discriminate.
  rewrite get_dict. destruct (lookup "properties" d) as [v|].
  - destruct v; try discriminate. intros H. now split.
  - now split.
Qed.

Lemma lookup_scalar (k : string) (p : list (string * value)) (v : value) :
  forallb (fun kv => is_scalar (snd kv)) p = true ->
  lookup k p = Some v -> is_scalar v = true.
Proof.
  induction p as [|[k' w] p IH]; simpl; [discriminate|].
  intros H. apply andb_prop in H. destruct H as [Hw Hp].
  destruct (String.eqb k k'); [intros [= <-]; exact Hw|now apply IH].
Qed.

Lemma find_scalar {A : Type} (v : value) (d : list (string * A)) :
  is_scalar v = true -> exists o, find v d = Ok o.
Proof. destruct v; simpl; try discriminate; eauto. Qed.

(** The lines of a deal whose close date is absent or a string. *)
Lemma deal_parts_shape (i : Z) (p : list (string * value)) :
  forallb (fun kv => is_scalar (snd kv)) p = true ->
  match lookup "closedate" p with None | Some (VStr _) => true | Some _ => false end = true ->
  exists stage closing,
    deal_parts i (VDict p)
    = Ok (("**" ++ PyStr.of_Z i ++ ".** 🏷️ "
           ++ str (match lookup "dealname" p with Some v => v | None => VStr "Unnamed Deal" end))
          :: ("   - 💵 Amount: "
              ++ amount_text (match lookup "amount" p with Some v => v | None => VStr "0" end))
          :: ("   - 📊 Stage: " ++ stage)
          :: closing).
Proof.
  intros Hp Hc. unfold deal_parts. repeat rewrite get_dict. cbn [bind].
  assert (Hs : is_scalar (match lookup "dealstage" p with Some v => v | None => VStr "N/A" end) = true).
  { destruct (lookup "dealstage" p) eqn:E; [now apply (lookup_scalar _ _ _ Hp E)|reflexivity]. }
  destruct (find_scalar (A := string) _ deal_stages Hs) as [o Ho]. rewrite Ho. cbn [bind].
  destruct (lookup "closedate" p) as [c|].
  - destruct c; try discriminate. cbn [eq_str].
    destruct (String.eqb s "N/A"); cbn [negb slice_to bind app]; do 2 eexists; reflexivity.
  - cbn [eq_str String.eqb Ascii.eqb Bool.eqb negb bind app]. do 2 eexists; reflexivity.
Qed.

Lemma contact_parts_shape (i : Z) (p : list (string * value)) :
  exists title rest,
    contact_parts i (VDict p) = Ok (("**" ++ PyStr.of_Z i ++ ".** " ++ title) :: rest).
Proof.
  unfold contact_parts. repeat rewrite get_dict. cbn [bind].
  assert (E : forall n, ".** 👤 " ++ n = ".** " ++ ("👤 " ++ n)) by reflexivity.
  rewrite E.
  match goal with |- context [if negb ?b then _ else _] => destruct b end;
    cbn [negb app]; do 2 eexists; reflexivity.
Qed.

Lemma company_parts_shape (i : Z) (p : list (string * value)) :
  exists title rest,
    company_parts i (VDict p) = Ok (("**" ++ PyStr.of_Z i ++ ".** " ++ title) :: rest).
Proof.
  unfold company_parts. repeat rewrite get_dict. cbn [bind].
  assert (E : forall n, ".** 🏢 " ++ n = ".** " ++ ("🏢 " ++ n)) by reflexivity.
  rewrite E.
  destruct (eq_str _ "N/A"); cbn [negb app];
    destruct (eq_str _ "N/A"); cbn [negb app]; do 2 eexists; reflexivity.
Qed.

Lemma close_date_of_properties (r : value) :
  close_date_shown r = true ->
  match lookup "closedate" (properties_of r) with
  | None | Some (VStr _) => true
  | Some _ => false
  end = true.
Proof. exact (fun H => H). Qed.

(** A typed record renders, and for a known object type its paragraph opens
    with its number. *)
Lemma record_parts_typed (ot : value) (i : Z) (r : value) :
  typed_record r = true ->
  (eq_str ot "deals" = true -> close_date_shown r = true) ->
  record_parts ot i r = Ok (paragraph ot i r)
  /\ (known_type ot = true -> numbered i (paragraph ot i r))
  /\ (known_type ot = false -> paragraph ot i r = []).
Proof.
  intros Hr Hc. destruct (record_properties r Hr) as [Hg Hp].
  unfold paragraph, record_parts, known_type. rewrite Hg. cbn [bind].
  destruct (eq_str ot "deals") eqn:Ed.
  - destruct (deal_parts_shape i _ Hp (close_date_of_properties r (Hc eq_refl)))
      as (stage & closing & E).
    rewrite E. split; [reflexivity|]. split; [|discriminate].
    intros _. exists ("🏷️ " ++ str (match lookup "dealname" (properties_of r) with
                                    | Some v => v
                                    | None => VStr "Unnamed Deal"
                                    end)), (("   - 💵 Amount: "
              ++ amount_text (match lookup "amount" (properties_of r) with
                              | Some v => v
                              | None => VStr "0"
                              end))
          :: ("   - 📊 Stage: " ++ stage) :: closing).
    reflexivity.
  - destruct (eq_str ot "contacts") eqn:Ec.
    + destruct (contact_parts_shape i (properties_of r)) as (title & rest & E).
      rewrite E. split; [reflexivity|]. split; [|discriminate].
      intros _. now exists title, rest.
    + destruct (eq_str ot "companies") eqn:Em.
      * destruct (company_parts_shape i (properties_of r)) as (title & rest & E).
        rewrite E. split; [reflexivity|]. split; [|discriminate].
        intros _. now exists title, rest.
      * split; [reflexivity|]. split; [discriminate|reflexivity].
Qed.

(** The loop of line 232 appends the paragraphs of the records it visits. *)
Lemma list_loop_paragraphs (ot : value) (rs : list value) :
  (forall r, In r rs -> forall i, record_parts ot i r = Ok (paragraph ot i r)) ->
  forall i acc, list_loop ot i rs acc = Ok (acc ++ List.concat (paragraphs ot i rs))%list.
Proof.
  induction rs as [|r rs IH]; intros H i acc.
  - simpl. now rewrite app_nil_r.
  - cbn [list_loop paragraphs List.concat].
    rewrite (H r (or_introl eq_refl) i). cbn [bind].
    rewrite IH by (intros r' Hin; apply H; now right).
    now rewrite app_assoc.
Qed.

(** The loop of line 232 keeps what it was given. *)
Lemma list_loop_extends (ot : value) (rs : list value) :
  forall i acc parts, list_loop ot i rs acc = Ok parts -> exists tail, parts = (acc ++ tail)%list.
Proof.
  induction rs as [|r rs IH]; intros i acc parts.
  - simpl. intros [= <-]. exists []. now rewrite app_nil_r.
  - cbn [list_loop]. destruct (record_parts ot i r) as [ps|e]; cbn [bind]; [|discriminate].
    intros H. destruct (IH _ _ _ H) as [tail ->]. exists (ps ++ tail)%list.
    now rewrite app_assoc.
Qed.

Lemma paragraphs_length (ot : value) (rs : list value) :
  forall i, List.length (paragraphs ot i rs) = List.length rs.
Proof. induction rs as [|r rs IH]; intros i; simpl; [reflexivity|]. now rewrite IH. Qed.

Lemma paragraphs_nth (ot : value) (rs : list value) :
  forall i k, (k < List.length rs)%nat ->
  nth k (paragraphs ot i rs) [] = paragraph ot (i + Z.of_nat k) (nth k rs VNone).
Proof.
  induction rs as [|r rs IH]; intros i k Hk; simpl in Hk; [lia|].
  destruct k as [|k].
  - simpl. now rewrite Z.add_0_r.
  - cbn [paragraphs nth]. rewrite IH by lia. f_equal. lia.
Qed.

Lemma forallb_In {A : Type} (p : A -> bool) (l : list A) (x : A) :
  forallb p l = true -> In x l -> p x = true.
Proof. intros H Hin. rewrite forallb_forall in H. now apply H. Qed.

(** The sum of line 226 over records whose amounts convert. *)
Lemma amount_of_converts (r : value) :
  typed_record r = true -> amount_converts r = true -> exists x, amount_of r = Ok x.
Proof.
  intros Hr Ha. destruct (record_properties r Hr) as [Hg _].
  unfold amount_of. rewrite Hg. cbn [bind]. rewrite get_dict. cbn [bind].
  unfold amount_converts in Ha.
  destruct (lookup "amount" (properties_of r)) as [a|]; [|now eexists].
  destruct a as [|b|n|x|s|l|d]; try discriminate.
  - now eexists.
  - destruct b; now eexists.
  - cbn [truthy]. destruct (n =? 0); cbn [negb]; [now eexists|].
    cbn [float]. destruct (PyFloat.of_Z n); [now eexists|discriminate].
  - destruct x as [[|]|[|]| |]; now eexists.
  - destruct s as [|c s]; [now eexists|].
    cbn [truthy float]. destruct (PyFloat.of_string (String c s)); [now eexists|discriminate].
Qed.

Lemma sum_amounts_converts (rs : list value) :
  forallb typed_record rs = true -> forallb amount_converts rs = true ->
  forall total, exists x, sum_amounts rs total = Ok x.
Proof.
  induction rs as [|r rs IH]; intros Hr Ha total.
  - now eexists.
  - simpl in Hr, Ha. apply andb_prop in Hr, Ha. destruct Hr as [Hr Hrs], Ha as [Ha Has].
    cbn [sum_amounts]. destruct (amount_of_converts r Hr Ha) as [x ->]. cbn [bind].
    now apply IH.
Qed.

Lemma join_cons (sep h : string) (l : list string) :
  PyStr.join sep (h :: l)
  = h ++ match l with [] => EmptyString | _ :: _ => sep ++ PyStr.join sep l end.
Proof.
  destruct l; simpl; [|reflexivity].
  induction h; simpl; [reflexivity|]. now f_equal.
Qed.

End FormatterLemmas.
(** ** The branches of [format_response] *)

Section FormatterModes.

Lemma format_error (f : list (string * value)) (i e : value) :
  lookup "error" f = Some e ->
  format_response (VDict f) i = Ok ("❌ Sorry, I encountered an error: " ++ str e).
Proof.
  intros H. unfold format_response. cbn [str_in bind]. unfold has_key. rewrite H.
  cbn [getitem]. rewrite H. reflexivity.
Qed.

Lemma format_no_results (f : list (string * value)) (i : value) :
  has_key "error" f = false ->
  match lookup "results" f with None | Some (VList []) => true | Some _ => false end = true ->
  format_response (VDict f) i = Ok "🔍 I couldn't find any matching records.".
Proof.
  intros He Hr. unfold format_response. cbn [str_in bind]. rewrite He. rewrite get_dict.
  cbn [bind]. destruct (lookup "results" f) as [v|]; [|reflexivity].
  destruct v as [| | | | |l|]; try discriminate. destruct l; [reflexivity|discriminate].
Qed.

(** [format_response] on a result set with results, by mode. *)
Lemma format_results (f d : list (string * value)) (rs : list value) :
  has_key "error" f = false ->
  lookup "results" f = Some (VList rs) ->
  rs <> [] ->
  format_response (VDict f) (VDict d)
  = let n := Z.of_nat (List.length rs) in
    if count_mode d then
      Ok ("📊 Total " ++ str (shown_type d) ++ ": **" ++ PyStr.of_Z n ++ "**")
    else if total_mode d then
      bind (sum_amounts rs PyFloat.zero) (fun total =>
        Ok ("💰 Total deal value: **$" ++ PyFloat.format_2f total
            ++ "** across " ++ PyStr.of_Z n ++ " deals"))
    else
      bind (list_loop (shown_type d) 1 (firstn 10 rs) [header n (shown_type d)]) (fun parts =>
        Ok (PyStr.join PyStr.newline (parts ++ note_lines n)%list)).
Proof.
  intros He Hr Hne. unfold format_response. cbn [str_in bind]. rewrite He.
  rewrite get_dict, Hr. cbn [bind].
  assert (Ht : truthy (VList rs) = true) by (destruct rs; [contradiction|reflexivity]).
  rewrite Ht. cbn [negb]. repeat rewrite get_dict. cbn [bind].
  unfold count_mode, total_mode, shown_type, shown_summary, note_lines, header.
  cbn [len bind slice_to iter].
  destruct (eq_str _ "count"); [reflexivity|].
  destruct (eq_str _ "total" && eq_str _ "deals"); [reflexivity|].
  destruct (list_loop _ 1 (firstn 10 rs) _); cbn [bind]; [|reflexivity].
  destruct (10 <? Z.of_nat (List.length rs)); [reflexivity|]. now rewrite app_nil_r.
Qed.

Lemma forallb_firstn {A : Type} (p : A -> bool) (n : nat) (l : list A) :
  forallb p l = true -> forallb p (firstn n l) = true.
Proof.
  revert l. induction n as [|n IH]; intros [|x l]; simpl; try reflexivity.
  intros H. apply andb_prop in H. destruct H as [-> H]. now rewrite IH.
Qed.

(** The list branch on typed records. *)
Lemma list_branch (d : list (string * value)) (rs : list value) (n : Z) :
  forallb typed_record (firstn 10 rs) = true ->
  (eq_str (shown_type d) "deals" = true -> forallb close_date_shown (firstn 10 rs) = true) ->
  list_loop (shown_type d) 1 (firstn 10 rs) [header n (shown_type d)]
  = Ok ([header n (shown_type d)] ++ List.concat (paragraphs (shown_type d) 1 (firstn 10 rs)))%list.
Proof.
  intros Ht Hc. apply list_loop_paragraphs. intros r Hin i.
  apply record_parts_typed.
  - exact (forallb_In _ _ _ Ht Hin).
  - intros Hd. exact (forallb_In _ _ _ (Hc Hd) Hin).
Qed.

(** A line of output that is not the error line does not open with its mark. *)
Lemma success_not_error_line (data i : value) (text : string) :
  str_in "error" data = Ok false ->
  format_response data i = Ok text ->
  String.prefix "❌" text = false.
Proof.
  intros He. unfold format_response. rewrite He. cbn [bind].
  destruct (get data "results" (VList [])) as [results|]; cbn [bind]; [|discriminate].
  destruct (truthy results); cbn [negb]; [|intros [= <-]; reflexivity].
  destruct (get i "object_type" (VStr "records")) as [ot|]; cbn [bind]; [|discriminate].
  destruct (get i "summary_type" (VStr "list")) as [st|]; cbn [bind]; [|discriminate].
  destruct (eq_str st "count").
  - destruct (len results); cbn [bind]; [|discriminate]. intros [= <-]. reflexivity.
  - destruct (eq_str st "total" && eq_str ot "deals").
    + destruct (iter results); cbn [bind]; [|discriminate].
      destruct (sum_amounts _ _); cbn [bind]; [|discriminate].
      destruct (len results); cbn [bind]; [|discriminate]. intros [= <-]. reflexivity.
    + destruct (len results) as [n|]; cbn [bind]; [|discriminate].
      destruct (slice_to 10 results); cbn [bind]; [|discriminate].
      destruct (iter _); cbn [bind]; [|discriminate].
      destruct (list_loop _ _ _ _) as [parts|] eqn:El; cbn [bind]; [|discriminate].
      destruct (list_loop_extends _ _ _ _ _ El) as [tail ->].
      intros [= <-]. cbn [app].
      destruct (10 <? n); cbn [app]; rewrite join_cons; reflexivity.
Qed.

Lemma contains_newline_cons (c : ascii) (s : string) :
  PyStr.code c <> 10 ->
  PyStr.contains PyStr.newline (String c s) = PyStr.contains PyStr.newline s.
Proof.
  intros H. cbn [PyStr.contains]. unfold PyStr.newline, PyStr.str1. cbn [String.prefix].
  destruct (ascii_dec (PyStr.chr 10) c) as [E|E]; [|reflexivity].
  exfalso. apply H. rewrite <- E. reflexivity.
Qed.

(** The error line breaks only where the error text does. *)
Lemma error_line_breaks (detail : string) :
  PyStr.contains PyStr.newline ("❌ Sorry, I encountered an error: " ++ detail)
  = PyStr.contains PyStr.newline detail.
Proof.
  cbn [append]. repeat (rewrite contains_newline_cons by (vm_compute; discriminate)).
  reflexivity.
Qed.

End FormatterModes.

(** * The claims *)

(** ** C1: the stages return *)

(** C1, as stated, fails: an Intent whose limit is text, as the completion
    service may give it, makes the Request Builder raise. *)
Lemma text_limit_makes_builder_raise :
  build_api_request "KEY" (VDict [("limit", VStr "10")]) = Raise TypeError.
Proof. reflexivity. Qed.

(** C1, amended: for every typed Query Intent and every typed Result Set the
    Request Builder returns a request and the Formatter returns text, when
    the records the mode reads can be rendered: in count mode always, in list
    mode for deals when the close dates of the first ten records are strings
    or absent, in total mode when the amounts convert. *)
Theorem typed_stages_return_text (key : string) (d : list (string * value)) (data : value) :
  typed_intent (VDict d) = true ->
  typed_result_set data = true ->
  renders d (results_of data) = true ->
  (exists req, build_api_request key (VDict d) = Ok req)
  /\ (exists text, format_response data (VDict d) = Ok text).
Proof.
  intros Hi Hd Hr. split.
  - rewrite (build_typed key d Hi). now eexists.
  - destruct data as [| | | | | |f]; try discriminate.
    unfold typed_result_set in Hd. unfold results_of in Hr.
    destruct (lookup "error" f) as [e|] eqn:Ee.
    + rewrite (format_error f _ e Ee). now eexists.
    + assert (He : has_key "error" f = false) by (unfold has_key; now rewrite Ee).
      rewrite He in Hd. cbn [orb] in Hd.
      destruct (lookup "results" f) as [v|] eqn:Er.
      * destruct v as [| | | | |rs|]; try discriminate.
        destruct rs as [|r rs'] eqn:Ers.
        -- rewrite format_no_results; [now eexists|exact He|now rewrite Er].
        -- rewrite <- Ers in *. assert (Hne : rs <> []) by (rewrite Ers; discriminate).
           rewrite (format_results f d rs He Er Hne). cbv zeta.
           unfold renders in Hr.
           destruct (count_mode d); [now eexists|].
           destruct (total_mode d).
           ++ destruct (sum_amounts_converts rs Hd Hr PyFloat.zero) as [x ->].
              cbn [bind]. now eexists.
           ++ rewrite list_branch.
              ** cbn [bind]. now eexists.
              ** now apply forallb_firstn.
              ** intros E. now rewrite E in Hr.
      * rewrite format_no_results; [now eexists|exact He|now rewrite Er].
Qed.

Lemma typed_stages_return_text_witness :
  typed_intent (VDict (dealstage_intent "closed won")) = true
  /\ typed_result_set
       (VDict [("results", VList [deal [("dealname", VStr "Renewal"); ("amount", VStr "1200")]])])
     = true
  /\ renders (dealstage_intent "closed won")
       (results_of
          (VDict [("results", VList [deal [("dealname", VStr "Renewal"); ("amount", VStr "1200")]])]))
     = true
  /\ (exists req, build_api_request "KEY" (VDict (dealstage_intent "closed won")) = Ok req)
  /\ (exists text,
        format_response
          (VDict [("results", VList [deal [("dealname", VStr "Renewal"); ("amount", VStr "1200")]])])
          (VDict (dealstage_intent "closed won"))
        = Ok text).
Proof.
  split; [reflexivity|]. split; [reflexivity|]. split; [reflexivity|].
  apply (typed_stages_return_text "KEY" (dealstage_intent "closed won")
           (VDict [("results", VList [deal [("dealname", VStr "Renewal"); ("amount", VStr "1200")]])]));
    reflexivity.
Defined.

(** ** C2: the total of the amounts *)

(** C2: in total mode over deals an amount that is text but no number makes
    the Formatter raise ValueError, where the claim has it count as 0; the
    list mode of the same method turns such an amount into N/A.  On the
    results of the claim's example the line is the one the claim gives. *)
Theorem total_raises_on_text_amount :
  format_response (VDict [("results", VList [deal [("amount", VStr "abc")]])])
    (intent "deals" "total")
  = Raise ValueError
  /\ amount_text (VStr "abc") = "N/A"
  /\ format_response
       (VDict [("results",
                VList [ deal [("amount", VStr "100.50")];
                        deal [("amount", VNone)];
                        deal [("amount", VStr "49.5")] ])])
       (intent "deals" "total")
     = Ok "💰 Total deal value: **$150.00** across 3 deals".
Proof. repeat split; vm_compute; reflexivity. Qed.

(** ** C3: the limit parameter *)

(** C3, as stated, fails: a requested limit of 0 is sent as 0, below 1. *)
Lemma limit_zero_is_sent :
  exists l, param "limit" (build_api_request "KEY" (VDict [("limit", VInt 0)])) = Ok (VInt l)
            /\ ~ (1 <= l <= 100).
Proof. exists 0. split; [reflexivity|lia]. Qed.

(** C3, amended: for every typed Query Intent the Request Builder returns a
    request whose limit parameter is the smaller of the requested limit and
    100 (the requested limit being 10 when the field is absent): it is at most
    100, exactly 100 for a request above 100, 10 for an absent limit, and at
    least 1 whenever the requested limit is; a requested limit below 1 is
    sent unchanged. *)
Theorem limit_is_min_with_100 (key : string) (d : list (string * value)) :
  typed_intent (VDict d) = true ->
  exists l,
    param "limit" (build_api_request key (VDict d)) = Ok (VInt l)
    /\ l = Z.min (requested_limit d) 100
    /\ l <= 100
    /\ (100 < requested_limit d -> l = 100)
    /\ (1 <= requested_limit d -> 1 <= l)
    /\ (requested_limit d < 1 -> l = requested_limit d)
    /\ (lookup "limit" d = None -> l = 10).
Proof.
  intros H. exists (Z.min (requested_limit d) 100).
  rewrite (build_typed key d H). cbn [app]. rewrite param_limit.
  repeat split; try lia.
  intros E. unfold requested_limit. rewrite E. reflexivity.
Qed.

Lemma limit_is_min_with_100_witness :
  typed_intent (VDict [("limit", VInt 1000)]) = true
  /\ exists l,
       param "limit" (build_api_request "KEY" (VDict [("limit", VInt 1000)])) = Ok (VInt l)
       /\ l = Z.min (requested_limit [("limit", VInt 1000)]) 100
       /\ l <= 100
       /\ (100 < requested_limit [("limit", VInt 1000)] -> l = 100)
       /\ (1 <= requested_limit [("limit", VInt 1000)] -> 1 <= l)
       /\ (requested_limit [("limit", VInt 1000)] < 1 -> l = requested_limit [("limit", VInt 1000)])
       /\ (lookup "limit" [("limit", VInt 1000)] = None -> l = 10).
Proof.
  split; [reflexivity|].
  apply (limit_is_min_with_100 "KEY" [("limit", VInt 1000)]). reflexivity.
Defined.

(** ** C4: the defaults of an Intent *)

(** C4, as stated, fails: the reply [{}] is returned as it is, with none of
    the five fields. *)
Lemma empty_reply_stays_empty :
  interpret_query (answers "{}") "How many deals do we have?" = (VDict [], []).
Proof. reflexivity. Qed.

(** C4, amended: interpret returns the reply of the service as [json.loads]
    parsed it, adding no field; a field missing from the Intent is defaulted
    where it is read: the Request Builder builds the same request as for the
    Intent with object_type deals, limit 10, properties the first three
    default properties of the resolved object type and filters {} filled in,
    and the Formatter gives the same text as for the Intent with summary_type
    list (and object_type records) filled in. *)
Theorem reply_unchanged_defaults_when_read :
  (forall create user_query c v,
     create system_prompt user_query = Content c ->
     json_loads c = Ok v ->
     interpret_query create user_query = (v, []))
  /\ (forall key d,
        build_api_request key (VDict (with_builder_defaults d)) = build_api_request key (VDict d))
  /\ (forall data d,
        format_response data (VDict (with_formatter_defaults d)) = format_response data (VDict d)).
Proof.
  split; [|split].
  - intros create user_query c v Hc Hv. unfold interpret_query, interpret_body.
    rewrite Hc, Hv. reflexivity.
  - exact build_reads_defaults.
  - exact format_reads_defaults.
Qed.

Lemma reply_unchanged_defaults_when_read_witness :
  answers "{}" system_prompt "How many deals do we have?" = Content (VStr "{}")
  /\ json_loads (VStr "{}") = Ok (VDict [])
  /\ interpret_query (answers "{}") "How many deals do we have?" = (VDict [], []).
Proof.
  split; [reflexivity|]. split; [reflexivity|].
  apply (proj1 reply_unchanged_defaults_when_read (answers "{}") "How many deals do we have?"
           (VStr "{}") (VDict [])); reflexivity.
Defined.

(** ** C5: the fallback Intent *)

(** C5: when the completion call raises, or its reply is not a str holding
    JSON, interpret returns the fallback Intent {deals, {}, [dealname,
    amount], 10, list} and reports the exception; it raises nothing. *)
Theorem interpret_failure_gives_fallback
  (create : string -> string -> completion) (user_query : string) (e : exn) :
  create system_prompt user_query = CallRaised e
  \/ (exists c, create system_prompt user_query = Content c /\ json_loads c = Raise e) ->
  interpret_query create user_query
  = (VDict [ ("object_type", VStr "deals");
             ("filters", VDict []);
             ("properties", VList [VStr "dealname"; VStr "amount"]);
             ("limit", VInt 10);
             ("summary_type", VStr "list") ],
     [("Error interpreting query: ", e)]).
Proof.
  unfold interpret_query, interpret_body.
  intros [H|[c [Hc He]]].
  - rewrite H. reflexivity.
  - rewrite Hc, He. reflexivity.
Qed.

Lemma interpret_failure_gives_fallback_witness :
  (answers "Sorry, I cannot help with that." system_prompt "What is the weather?"
   = CallRaised ValueError
   \/ (exists c,
         answers "Sorry, I cannot help with that." system_prompt "What is the weather?" = Content c
         /\ json_loads c = Raise ValueError))
  /\ interpret_query (answers "Sorry, I cannot help with that.") "What is the weather?"
     = (VDict [ ("object_type", VStr "deals");
                ("filters", VDict []);
                ("properties", VList [VStr "dealname"; VStr "amount"]);
                ("limit", VInt 10);
                ("summary_type", VStr "list") ],
        [("Error interpreting query: ", ValueError)]).
Proof.
  assert (H : answers "Sorry, I cannot help with that." system_prompt "What is the weather?"
              = CallRaised ValueError
              \/ (exists c,
                    answers "Sorry, I cannot help with that." system_prompt "What is the weather?"
                    = Content c
                    /\ json_loads c = Raise ValueError)).
  { right. exists (VStr "Sorry, I cannot help with that."). split; reflexivity. }
  split; [exact H|].
  exact (interpret_failure_gives_fallback (answers "Sorry, I cannot help with that.")
           "What is the weather?" ValueError H).
Defined.

(** ** C6: a failed fetch *)

(** C6: when the read call raises a RequestException with a non-empty
    detail, fetch raises nothing and returns the Result Set with no results
    and that detail as its error, and format turns it, for any Intent, into
    the one error line, which breaks only where the detail does and opens
    unlike every line format gives for a Result Set without error. *)
Theorem transport_failure_becomes_error_line
  (requests_get : value -> value -> value -> response)
  (request_config url params headers : value) (detail : string) (i : value) :
  getitem request_config "url" = Ok url ->
  getitem request_config "params" = Ok params ->
  getitem request_config "headers" = Ok headers ->
  requests_get url params headers = GetRaised (RequestException detail) ->
  detail <> EmptyString ->
  exists data,
    fetch_hubspot_data requests_get request_config
    = (Ok data, [("Error fetching data from HubSpot: ", RequestException detail)])
    /\ getitem data "results" = Ok (VList [])
    /\ (exists err, getitem data "error" = Ok (VStr err) /\ err <> EmptyString)
    /\ format_response data i = Ok ("❌ Sorry, I encountered an error: " ++ detail)
    /\ PyStr.contains PyStr.newline ("❌ Sorry, I encountered an error: " ++ detail)
       = PyStr.contains PyStr.newline detail
    /\ (forall data' i' text,
          str_in "error" data' = Ok false ->
          format_response data' i' = Ok text ->
          String.prefix "❌" text = false).
Proof.
  intros Hu Hp Hh Hg Hd.
  exists (VDict [("results", VList []); ("error", VStr detail)]).
  split; [|split; [|split; [|split; [|split]]]].
  - unfold fetch_hubspot_data. rewrite Hu, Hp, Hh. cbn [bind]. rewrite Hg. reflexivity.
  - reflexivity.
  - exists detail. split; [reflexivity|exact Hd].
  - exact (format_error [("results", VList []); ("error", VStr detail)] i (VStr detail) eq_refl).
  - apply error_line_breaks.
  - exact success_not_error_line.
Qed.

Lemma transport_failure_becomes_error_line_witness :
  exists data,
    fetch_hubspot_data (fails_with "404 Client Error: Not Found")
      (request_of "KEY" deals_endpoint [("limit", VInt 10); ("properties", VStr "dealname")])
    = (Ok data, [("Error fetching data from HubSpot: ",
                  RequestException "404 Client Error: Not Found")])
    /\ getitem data "results" = Ok (VList [])
    /\ (exists err, getitem data "error" = Ok (VStr err) /\ err <> EmptyString)
    /\ format_response data (intent "deals" "list")
       = Ok ("❌ Sorry, I encountered an error: " ++ "404 Client Error: Not Found")
    /\ PyStr.contains PyStr.newline
         ("❌ Sorry, I encountered an error: " ++ "404 Client Error: Not Found")
       = PyStr.contains PyStr.newline "404 Client Error: Not Found"
    /\ (forall data' i' text,
          str_in "error" data' = Ok false ->
          format_response data' i' = Ok text ->
          String.prefix "❌" text = false).
Proof.
  apply (transport_failure_becomes_error_line (fails_with "404 Client Error: Not Found")
           (request_of "KEY" deals_endpoint [("limit", VInt 10); ("properties", VStr "dealname")])
           (VStr (base_url ++ endpoint deals_endpoint))
           (VDict [("limit", VInt 10); ("properties", VStr "dealname")])
           (VDict [ ("Authorization", VStr ("Bearer " ++ "KEY"));
                    ("Content-Type", VStr "application/json") ])
           "404 Client Error: Not Found" (intent "deals" "list"));
    try reflexivity.
  discriminate.
Defined.

(** ** C7: the stages *)

(** C7: for every (code, label) of the stage vocabulary and every text equal
    to the label up to letter case, the loop of the Request Builder resolves
    the text to the code, the request built for a dealstage filter with that
    text carries the code, and the Formatter shows a deal in stage code with
    the label. *)
Theorem stage_round_trip (code label : string) :
  In (code, label) deal_stages ->
  forall (v key : string) (i : Z),
    PyStr.lower v = PyStr.lower label ->
    stage_key_for deal_stages (VStr v) = Ok (VStr code)
    /\ param "filterGroups" (build_api_request key (VDict (dealstage_intent v)))
       = Ok (VStr (json_dumps (VList [filter_group "dealstage" (VStr code)])))
    /\ record_parts (VStr "deals") i (deal [("dealstage", VStr code)])
       = Ok [ "**" ++ PyStr.of_Z i ++ ".** 🏷️ Unnamed Deal";
              "   - 💵 Amount: $0.00";
              "   - 📊 Stage: " ++ label;
              EmptyString ].
Proof.
  intros Hin v key i Hv.
  pose proof (stage_code_of_label code label v Hin Hv) as Hc.
  split; [|split].
  - rewrite stage_key_for_str. now rewrite Hc.
  - rewrite (build_typed key (dealstage_intent v) eq_refl).
    change (sent_filters (dealstage_intent v))
      with [("filterGroups",
             VStr (json_dumps (VList [filter_group "dealstage"
                                        (VStr (stage_code deal_stages v))])))].
    rewrite Hc. reflexivity.
  - clear Hv Hc. unfold deal_stages in Hin. simpl in Hin.
    repeat (destruct Hin as [Hin|Hin]; [injection Hin as <- <-; reflexivity|]).
    contradiction.
Qed.

Lemma stage_round_trip_witness :
  In ("closedwon", "Closed Won") deal_stages
  /\ PyStr.lower "CLOSED won" = PyStr.lower "Closed Won"
  /\ stage_key_for deal_stages (VStr "CLOSED won") = Ok (VStr "closedwon")
  /\ param "filterGroups" (build_api_request "KEY" (VDict (dealstage_intent "CLOSED won")))
     = Ok (VStr (json_dumps (VList [filter_group "dealstage" (VStr "closedwon")])))
  /\ record_parts (VStr "deals") 1 (deal [("dealstage", VStr "closedwon")])
     = Ok [ "**" ++ PyStr.of_Z 1 ++ ".** 🏷️ Unnamed Deal";
            "   - 💵 Amount: $0.00";
            "   - 📊 Stage: " ++ "Closed Won";
            EmptyString ].
Proof.
  assert (H : In ("closedwon", "Closed Won") deal_stages) by (simpl; tauto).
  split; [exact H|]. split; [reflexivity|].
  exact (stage_round_trip "closedwon" "Closed Won" H "CLOSED won" "KEY" 1 eq_refl).
Defined.

(** ** C8: the properties parameter *)

(** C8, as stated, fails: an empty properties sequence is sent as the empty
    string, not as the first three default properties. *)
Lemma empty_properties_are_sent_empty :
  param "properties" (build_api_request "KEY" (VDict [("properties", VList [])]))
  = Ok (VStr EmptyString)
  /\ PyStr.join "," (firstn 3 (properties (entry_for (requested_type [("properties", VList [])]))))
     = "dealname,amount,dealstage".
Proof. split; reflexivity. Qed.

(** C8, amended: for every typed Query Intent the properties parameter of the
    built request is the comma-join of intent.properties whenever that field
    is present (for the empty sequence the empty string), and the comma-join
    of the first three default properties of the resolved catalog entry only
    when the field is absent. *)
Theorem properties_joined_or_defaulted (key : string) (d : list (string * value)) :
  typed_intent (VDict d) = true ->
  (forall names, lookup "properties" d = Some (strs names) ->
     param "properties" (build_api_request key (VDict d)) = Ok (VStr (PyStr.join "," names)))
  /\ (lookup "properties" d = None ->
      param "properties" (build_api_request key (VDict d))
      = Ok (VStr (PyStr.join "," (firstn 3 (properties (entry_for (requested_type d))))))).
Proof.
  intros H. rewrite (build_typed key d H). cbn [app]. rewrite param_properties.
  unfold requested_properties. split.
  - intros names E. rewrite E. unfold strs. now rewrite texts_strs.
  - intros E. now rewrite E.
Qed.

Lemma properties_joined_or_defaulted_witness :
  typed_intent (VDict [("object_type", VStr "contacts")]) = true
  /\ (forall names, lookup "properties" [("object_type", VStr "contacts")] = Some (strs names) ->
        param "properties" (build_api_request "KEY" (VDict [("object_type", VStr "contacts")]))
        = Ok (VStr (PyStr.join "," names)))
  /\ (lookup "properties" [("object_type", VStr "contacts")] = None ->
      param "properties" (build_api_request "KEY" (VDict [("object_type", VStr "contacts")]))
      = Ok (VStr (PyStr.join ","
                    (firstn 3 (properties (entry_for (requested_type [("object_type", VStr "contacts")]))))))).
Proof.
  split; [reflexivity|].
  apply (properties_joined_or_defaulted "KEY" [("object_type", VStr "contacts")]). reflexivity.
Defined.

(** ** C9: the list shows ten results *)

(** C9: in list mode, for a Result Set without error whose first ten results
    are typed records (for deals with close dates that are strings or
    absent), the Formatter returns the header, then the paragraphs of the
    first ten results and of no other, then, when there are more than ten,
    the note with the number of results left out; the paragraphs are as many
    as the results up to ten and, for deals, contacts and companies, each
    opens with its number, from 1 on. *)
Theorem list_shows_first_ten (f d : list (string * value)) (rs : list value) :
  has_key "error" f = false ->
  lookup "results" f = Some (VList rs) ->
  rs <> [] ->
  list_mode d = true ->
  forallb typed_record (firstn 10 rs) = true ->
  (eq_str (shown_type d) "deals" = true -> forallb close_date_shown (firstn 10 rs) = true) ->
  let n := Z.of_nat (List.length rs) in
  let shown := paragraphs (shown_type d) 1 (firstn 10 rs) in
  format_response (VDict f) (VDict d)
  = Ok (PyStr.join PyStr.newline
          ([header n (shown_type d)] ++ List.concat shown ++ note_lines n)%list)
  /\ List.length shown = Nat.min 10 (List.length rs)
  /\ (known_type (shown_type d) = true ->
      forall k, (k < List.length shown)%nat -> numbered (1 + Z.of_nat k) (nth k shown []))
  /\ (10 < n ->
      note_lines n
      = [(PyStr.newline ++ "_...and " ++ PyStr.of_Z (n - 10) ++ " more results._")%string])
  /\ (n <= 10 -> note_lines n = []).
Proof.
  intros He Hr Hne Hm Ht Hc n shown.
  assert (Hlen : List.length shown = Nat.min 10 (List.length rs)).
  { unfold shown. rewrite paragraphs_length. apply length_firstn. }
  split; [|split; [exact Hlen|split; [|split]]].
  4: { intros Hn. unfold note_lines. apply Z.ltb_ge in Hn. now rewrite Hn. }
  3: { intros Hn. unfold note_lines. apply Z.ltb_lt in Hn. now rewrite Hn. }
  - rewrite (format_results f d rs He Hr Hne). cbv zeta.
    unfold list_mode in Hm. apply andb_prop in Hm. destruct Hm as [Hcm Htm].
    apply negb_true_iff in Hcm, Htm. rewrite Hcm, Htm.
    rewrite (list_branch d rs _ Ht Hc). cbn [bind].
    fold n. fold shown. now rewrite <- app_assoc.
  - intros Hk k Hlt. unfold shown in *. rewrite paragraphs_length in Hlt.
    rewrite paragraphs_nth by exact Hlt.
    assert (Hin : In (nth k (firstn 10 rs) VNone) (firstn 10 rs)) by now apply nth_In.
    destruct (record_parts_typed (shown_type d) (1 + Z.of_nat k) _
                (forallb_In _ _ _ Ht Hin)
                (fun E => forallb_In _ _ _ (Hc E) Hin)) as (_ & Hnum & _).
    now apply Hnum.
Qed.

Lemma list_shows_first_ten_witness :
  let f := [("results", VList (repeat (deal [("dealname", VStr "Renewal")]) 15))] in
  let d := [("object_type", VStr "deals"); ("summary_type", VStr "list")] in
  let rs := repeat (deal [("dealname", VStr "Renewal")]) 15 in
  has_key "error" f = false
  /\ lookup "results" f = Some (VList rs)
  /\ rs <> []
  /\ list_mode d = true
  /\ forallb typed_record (firstn 10 rs) = true
  /\ (eq_str (shown_type d) "deals" = true -> forallb close_date_shown (firstn 10 rs) = true)
  /\ format_response (VDict f) (VDict d)
     = Ok (PyStr.join PyStr.newline
             ([header 15 (shown_type d)]
              ++ List.concat (paragraphs (shown_type d) 1 (firstn 10 rs))
              ++ note_lines 15)%list)
  /\ List.length (paragraphs (shown_type d) 1 (firstn 10 rs)) = 10%nat
  /\ note_lines 15 = [(PyStr.newline ++ "_...and " ++ PyStr.of_Z 5 ++ " more results._")%string].
Proof.
  cbv zeta.
  assert (Hne : repeat (deal [("dealname", VStr "Renewal")]) 15 <> []) by discriminate.
  pose proof (list_shows_first_ten
                [("results", VList (repeat (deal [("dealname", VStr "Renewal")]) 15))]
                [("object_type", VStr "deals"); ("summary_type", VStr "list")]
                (repeat (deal [("dealname", VStr "Renewal")]) 15)
                eq_refl eq_refl Hne eq_refl eq_refl (fun _ => eq_refl)) as H.
  cbv zeta in H. destruct H as (H1 & H2 & _ & H3 & _).
  split; [reflexivity|]. split; [reflexivity|]. split; [exact Hne|].
  split; [reflexivity|]. split; [reflexivity|]. split; [intros _; reflexivity|].
  split; [exact H1|]. split; [exact H2|]. apply H3. reflexivity.
Defined.

(** ** C10: absent and null amounts *)

(** C10: in the list of deals, a typed record whose close date is a string
    or absent renders with, as its second line, the amount line: for a
    record without the amount key that line is the amount $0.00, for a
    record whose amount is null it is N/A. *)
Theorem absent_amount_zero_null_amount_na (i : Z) (p : list (string * value)) :
  typed_record (deal p) = true ->
  close_date_shown (deal p) = true ->
  exists name_line amount_line rest,
    record_parts (VStr "deals") i (deal p) = Ok (name_line :: amount_line :: rest)
    /\ (lookup "amount" p = None -> amount_line = "   - 💵 Amount: $0.00")
    /\ (lookup "amount" p = Some VNone -> amount_line = "   - 💵 Amount: N/A").
Proof.
  intros Ht Hc.
  destruct (record_properties (deal p) Ht) as [_ Hp].
  change (properties_of (deal p)) with p in Hp.
  destruct (deal_parts_shape i p Hp Hc) as (stage & closing & E).
  change (record_parts (VStr "deals") i (deal p)) with (deal_parts i (VDict p)).
  rewrite E. do 3 eexists. split; [reflexivity|].
  split; intros Ha; rewrite Ha; reflexivity.
Qed.

Lemma absent_amount_zero_null_amount_na_witness :
  typed_record (deal [("dealname", VStr "Renewal"); ("amount", VNone)]) = true
  /\ close_date_shown (deal [("dealname", VStr "Renewal"); ("amount", VNone)]) = true
  /\ exists name_line amount_line rest,
       record_parts (VStr "deals") 1 (deal [("dealname", VStr "Renewal"); ("amount", VNone)])
       = Ok (name_line :: amount_line :: rest)
       /\ (lookup "amount" [("dealname", VStr "Renewal"); ("amount", VNone)] = None ->
           amount_line = "   - 💵 Amount: $0.00")
       /\ (lookup "amount" [("dealname", VStr "Renewal"); ("amount", VNone)] = Some VNone ->
           amount_line = "   - 💵 Amount: N/A").
Proof.
  split; [reflexivity|]. split; [reflexivity|].
  apply (absent_amount_zero_null_amount_na 1 [("dealname", VStr "Renewal"); ("amount", VNone)]);
    reflexivity.
Defined.

(** * Further properties of the code *)

(** ** Lemmas *)

Section ExtraLemmas.

Lemma is_ok_true {A : Type} (r : res A) : is_ok r = true <-> exists a, r = Ok a.
Proof.
  destruct r; simpl; split; try discriminate; eauto. intros [a H]. discriminate.
Qed.

Lemma is_ok_bind {A B : Type} (m : res A) (f : A -> res B) :
  is_ok (bind m f) = match m with Ok a => is_ok (f a) | Raise _ => false end.
Proof. now destruct m. Qed.

Lemma find_is_ok {A : Type} (v : value) (d : list (string * A)) :
  is_ok (find v d) = hashable v.
Proof. now destruct v. Qed.

Lemma min_int_is_ok (v : value) : is_ok (min_int v 100) = is_number v.
Proof. now destruct v. Qed.

Lemma strings_is_ok (l : list value) : is_ok (strings l) = forallb is_str l.
Proof.
  induction l as [|v l IH]; [reflexivity|].
  destruct v; try reflexivity. cbn [strings forallb is_str andb].
  rewrite is_ok_bind. now destruct (strings l).
Qed.

Lemma join_is_ok (sep : string) (v : value) : is_ok (join sep v) = joinable v.
Proof.
  unfold join. destruct v; try reflexivity; cbn [iter bind joinable].
  - now rewrite strings_map_VStr.
  - rewrite is_ok_bind. rewrite <- strings_is_ok. now destruct (strings l).
  - replace (map (fun kv : string * value => VStr (fst kv)) d) with (map VStr (map fst d))
      by now rewrite map_map.
    now rewrite strings_map_VStr.
Qed.

Lemma filter_loop_is_ok (ot : value) (its : list (string * value)) :
  forall acc, is_ok (filter_loop ot its acc) = forallb (filter_ok ot) its.
Proof.
  induction its as [|[k v] its IH]; intros acc; [reflexivity|].
  cbn [filter_loop forallb]. unfold filter_ok at 1. cbn [fst snd].
  destruct (String.eqb k "dealstage" && eq_str ot "deals"); cbn [negb orb].
  - destruct v; try reflexivity. rewrite stage_key_for_str. cbn [bind is_str andb]. apply IH.
  - cbn [bind]. apply IH.
Qed.

(** Lines 163-184. *)
Lemma filters_is_ok (ot f : value) (params : list (string * value)) :
  is_ok (if truthy f then
           bind (items f) (fun its =>
           bind (filter_loop ot its []) (fun filter_groups =>
             if truthy (VList filter_groups)
             then Ok (params ++ [("filterGroups", VStr (json_dumps (VList filter_groups)))])%list
             else Ok params))
         else Ok params)
  = filters_ok ot f.
Proof.
  unfold filters_ok. destruct (truthy f); [|reflexivity].
  destruct f; try reflexivity. cbn [items bind]. rewrite is_ok_bind.
  rewrite <- (filter_loop_is_ok ot d []).
  destruct (filter_loop ot d []) as [gs|]; [|reflexivity].
  now destruct (truthy (VList gs)).
Qed.

(** Every request the builder returns has a url, parameters and the headers. *)
Lemma build_shape (key : string) (i req : value) :
  build_api_request key i = Ok req ->
  exists u p, req = VDict [("url", VStr u); ("params", VDict p); ("headers", headers_of key)].
Proof.
  unfold build_api_request.
  destruct (get i "object_type" _) as [ot|]; cbn [bind]; [|discriminate].
  destruct (find ot available_endpoints) as [found|]; cbn [bind]; [|discriminate].
  destruct (get i "limit" _) as [l|]; cbn [bind]; [|discriminate].
  destruct (min_int l 100) as [l'|]; cbn [bind]; [|discriminate].
  destruct (get i "properties" _) as [pr|]; cbn [bind]; [|discriminate].
  destruct (join "," pr) as [pr'|]; cbn [bind]; [|discriminate].
  destruct (get i "filters" _) as [fi|]; cbn [bind]; [|discriminate].
  match goal with |- bind ?m _ = _ -> _ => destruct m as [params|] end; cbn [bind]; [|discriminate].
  intros [= <-]. do 2 eexists. reflexivity.
Qed.

Lemma endpoint_of_entry (ot : value) :
  endpoint (entry_for ot) = "/crm/v3/objects/" ++ catalog_type ot.
Proof.
  unfold entry_for, catalog_type. destruct ot; try reflexivity.
  cbn [find]. unfold has_key, available_endpoints. cbn [lookup].
  destruct (String.eqb s "deals") eqn:E1.
  { apply String.eqb_eq in E1. subst s. reflexivity. }
  destruct (String.eqb s "contacts") eqn:E2.
  { apply String.eqb_eq in E2. subst s. reflexivity. }
  destruct (String.eqb s "companies") eqn:E3.
  { apply String.eqb_eq in E3. subst s. reflexivity. }
  reflexivity.
Qed.

Lemma sent_groups_unchanged (ot : value) (its : list (string * value)) :
  eq_str ot "deals" = false ->
  sent_groups ot its = map (fun kv => filter_group (fst kv) (snd kv)) its.
Proof.
  intros H. unfold sent_groups. apply map_ext. intros [k v]. cbn [fst snd].
  unfold sent_value. rewrite H. rewrite andb_false_r. now destruct v.
Qed.

Lemma list_loop_unknown (ot : value) (rs : list value) :
  known_type ot = false ->
  forallb is_dict rs = true ->
  forall i acc, list_loop ot i rs acc = Ok acc.
Proof.
  intros Hk. induction rs as [|r rs IH]; intros Hd i acc; [reflexivity|].
  simpl in Hd. apply andb_prop in Hd. destruct Hd as [Hr Hrs].
  destruct r; try discriminate.
  unfold known_type in Hk. apply orb_false_elim in Hk. destruct Hk as [Hk Hm].
  apply orb_false_elim in Hk. destruct Hk as [Hd Hc].
  cbn [list_loop]. unfold record_parts. rewrite get_dict. cbn [bind].
  rewrite Hd, Hc, Hm. cbn [bind]. rewrite app_nil_r. now apply IH.
Qed.

Lemma sum_amounts_fold (rs : list value) :
  forallb typed_record rs = true -> forallb amount_converts rs = true ->
  forall total,
    sum_amounts rs total = Ok (fold_left PyFloat.add (map amount_value rs) total).
Proof.
  induction rs as [|r rs IH]; intros Hr Ha total; [reflexivity|].
  simpl in Hr, Ha. apply andb_prop in Hr, Ha. destruct Hr as [Hr Hrs], Ha as [Ha Has].
  destruct (amount_of_converts r Hr Ha) as [x Hx].
  assert (Hv : amount_value r = x) by (unfold amount_value; now rewrite Hx).
  cbn [sum_amounts map fold_left]. rewrite Hx, Hv. cbn [bind]. now apply IH.
Qed.

Lemma amount_blank_zero (r : value) :
  typed_record r = true -> amount_blank r = true -> amount_value r = PyFloat.zero.
Proof.
  intros Hr Hb. destruct (record_properties r Hr) as [Hg _].
  unfold amount_value, amount_of. rewrite Hg. cbn [bind]. rewrite get_dict. cbn [bind].
  unfold amount_blank in Hb.
  destruct (lookup "amount" (properties_of r)) as [a|]; [|reflexivity].
  apply negb_true_iff in Hb. rewrite Hb. reflexivity.
Qed.

Lemma total_is_not_count (d : list (string * value)) :
  total_mode d = true -> count_mode d = false.
Proof.
  unfold total_mode, count_mode. intros H. apply andb_prop in H. destruct H as [H _].
  destruct (shown_summary d); try discriminate. cbn [eq_str] in *.
  apply String.eqb_eq in H. subst. reflexivity.
Qed.

Lemma deal_parts_unsliceable (i : Z) (r : value) :
  typed_record r = true ->
  close_date_unsliceable r = true ->
  record_parts (VStr "deals") i r = Raise TypeError.
Proof.
  intros Hr Hc. destruct (record_properties r Hr) as [Hg Hp].
  unfold record_parts. rewrite Hg. cbn [bind eq_str String.eqb Ascii.eqb Bool.eqb].
  unfold deal_parts. repeat rewrite get_dict. cbn [bind].
  assert (Hs : is_scalar (match lookup "dealstage" (properties_of r) with
                          | Some v => v
                          | None => VStr "N/A"
                          end) = true).
  { destruct (lookup "dealstage" (properties_of r)) eqn:E;
      [now apply (lookup_scalar _ _ _ Hp E)|reflexivity]. }
  destruct (find_scalar (A := string) _ deal_stages Hs) as [o Ho]. rewrite Ho. cbn [bind].
  unfold close_date_unsliceable in Hc.
  destruct (lookup "closedate" (properties_of r)) as [c|] eqn:Ec; [|discriminate].
  assert (Hsc : is_scalar c = true) by now apply (lookup_scalar _ _ _ Hp Ec).
  destruct c; try discriminate; reflexivity.
Qed.

(** The Formatter on typed input (the records being those the mode can render). *)
Lemma format_typed_returns (d : list (string * value)) (data : value) :
  typed_result_set data = true ->
  renders d (results_of data) = true ->
  exists text, format_response data (VDict d) = Ok text.
Proof.
  intros Hd Hr.
  destruct data as [| | | | | |f]; try discriminate.
  unfold typed_result_set in Hd. unfold results_of in Hr.
  destruct (lookup "error" f) as [e|] eqn:Ee.
  - rewrite (format_error f _ e Ee). now eexists.
  - assert (He : has_key "error" f = false) by (unfold has_key; now rewrite Ee).
    rewrite He in Hd. cbn [orb] in Hd.
    destruct (lookup "results" f) as [v|] eqn:Er.
    + destruct v as [| | | | |rs|]; try discriminate.
      destruct rs as [|r rs'] eqn:Ers.
      * rewrite format_no_results; [now eexists|exact He|now rewrite Er].
      * rewrite <- Ers in *. assert (Hne : rs <> []) by (rewrite Ers; discriminate).
        rewrite (format_results f d rs He Er Hne). cbv zeta.
        unfold renders in Hr.
        destruct (count_mode d); [now eexists|].
        destruct (total_mode d).
        -- destruct (sum_amounts_converts rs Hd Hr PyFloat.zero) as [x ->].
           cbn [bind]. now eexists.
        -- rewrite list_branch.
           ++ cbn [bind]. now eexists.
           ++ now apply forallb_firstn.
           ++ intros E. now rewrite E in Hr.
    + rewrite format_no_results; [now eexists|exact He|now rewrite Er].
Qed.

Lemma fetch_request_of
  (requests_get : value -> value -> value -> response)
  (key : string) (e : endpoint_info) (params : list (string * value)) :
  fetch_hubspot_data requests_get (request_of key e params)
  = match requests_get (VStr (base_url ++ endpoint e)) (VDict params) (headers_of key) with
    | Json v => (Ok v, [])
    | GetRaised (RequestException detail) =>
        (Ok (VDict [("results", VList []); ("error", VStr detail)]),
         [("Error fetching data from HubSpot: ", RequestException detail)])
    | GetRaised e => (Raise e, [])
    end.
Proof.
  unfold fetch_hubspot_data, request_of.
  cbn [getitem lookup String.eqb Ascii.eqb Bool.eqb bind].
  change (VDict [("Authorization", VStr ("Bearer " ++ key));
                 ("Content-Type", VStr "application/json")]) with (headers_of key).
  destruct (requests_get _ _ _) as [x|v]; [|reflexivity]. destruct x; reflexivity.
Qed.

Lemma contains_empty (s : string) : PyStr.contains EmptyString s = true.
Proof. destruct s; simpl; [reflexivity|]. reflexivity. Qed.

End ExtraLemmas.


(** ** The Request Builder *)

(** X1: the Request Builder returns a request exactly for the Intents that
    are mappings with an object type that can be hashed, a limit that is a
    number, properties that are text, a mapping or a list of strings, and
    filters that are false or a mapping whose dealstage value, when the
    object type is deals, is text; for every other Intent it raises. *)
Theorem builder_returns_iff_buildable (key : string) (i : value) :
  (exists req, build_api_request key i = Ok req) <-> buildable i = true.
Proof.
  rewrite <- is_ok_true.
  assert (E : is_ok (build_api_request key i) = buildable i); [|now rewrite E].
  unfold build_api_request, buildable.
  destruct i as [| | | | | |d]; try reflexivity.
  repeat rewrite get_dict. cbn [bind]. unfold requested_type.
  set (ot := match lookup "object_type" d with Some v => v | None => VStr "deals" end).
  rewrite is_ok_bind. rewrite <- (find_is_ok ot available_endpoints).
  destruct (find ot available_endpoints) as [found|]; [|reflexivity]. cbn [is_ok andb].
  rewrite is_ok_bind. rewrite <- min_int_is_ok.
  destruct (min_int _ 100) as [limit|]; [|reflexivity]. cbn [is_ok andb].
  rewrite get_dict. cbn [bind]. rewrite is_ok_bind.
  assert (Ej : is_ok (join "," match lookup "properties" d with
                               | Some v => v
                               | None => strs (firstn 3 (properties
                                                           match found with
                                                           | Some e => e
                                                           | None => deals_endpoint
                                                           end))
                               end)
               = absent_or joinable (lookup "properties" d)).
  { destruct (lookup "properties" d) as [pr|]; [apply join_is_ok|now rewrite join_strs]. }
  rewrite <- Ej. clear Ej.
  destruct (join "," _) as [props|]; [|reflexivity]. cbn [is_ok andb bind].
  rewrite is_ok_bind.
  assert (Ef : absent_or (filters_ok ot) (lookup "filters" d)
               = filters_ok ot match lookup "filters" d with Some v => v | None => VDict [] end)
    by now destruct (lookup "filters" d).
  rewrite Ef. clear Ef.
  rewrite <- (filters_is_ok ot _ [("limit", limit); ("properties", VStr props)]).
  now match goal with |- context [is_ok ?m] => destruct m end.
Qed.

Lemma builder_returns_iff_buildable_witness :
  buildable (VDict [("limit", VBool true); ("properties", VStr "email")]) = true
  /\ exists req,
       build_api_request "KEY" (VDict [("limit", VBool true); ("properties", VStr "email")])
       = Ok req.
Proof.
  split; [reflexivity|].
  exact (proj2 (builder_returns_iff_buildable "KEY"
                  (VDict [("limit", VBool true); ("properties", VStr "email")])) eq_refl).
Defined.

(** X2: for every typed Intent the request goes to
    https://api.hubapi.com/crm/v3/objects/ followed by the object type when
    that is deals, contacts or companies and by deals otherwise (absent or
    unknown type), with the bearer token and JSON content type as headers. *)
Theorem builder_url_by_object_type (key : string) (d : list (string * value)) :
  typed_intent (VDict d) = true ->
  exists req,
    build_api_request key (VDict d) = Ok req
    /\ getitem req "url"
       = Ok (VStr ("https://api.hubapi.com/crm/v3/objects/" ++ catalog_type (requested_type d)))
    /\ In (catalog_type (requested_type d)) ["deals"; "contacts"; "companies"]
    /\ getitem req "headers" = Ok (headers_of key).
Proof.
  intros H. rewrite (build_typed key d H). eexists. split; [reflexivity|].
  split; [|split; [|reflexivity]].
  - unfold request_of. cbn [getitem lookup String.eqb Ascii.eqb Bool.eqb].
    rewrite endpoint_of_entry. reflexivity.
  - unfold catalog_type. destruct (requested_type d); try (simpl; tauto).
    unfold has_key, available_endpoints. cbn [lookup].
    destruct (String.eqb s "deals") eqn:E1; [apply String.eqb_eq in E1; subst; simpl; tauto|].
    destruct (String.eqb s "contacts") eqn:E2; [apply String.eqb_eq in E2; subst; simpl; tauto|].
    destruct (String.eqb s "companies") eqn:E3; [apply String.eqb_eq in E3; subst; simpl; tauto|].
    simpl; tauto.
Qed.

Lemma builder_url_by_object_type_witness :
  typed_intent (VDict [("object_type", VStr "products")]) = true
  /\ exists req,
       build_api_request "KEY" (VDict [("object_type", VStr "products")]) = Ok req
       /\ getitem req "url"
          = Ok (VStr ("https://api.hubapi.com/crm/v3/objects/"
                      ++ catalog_type (requested_type [("object_type", VStr "products")])))
       /\ In (catalog_type (requested_type [("object_type", VStr "products")]))
             ["deals"; "contacts"; "companies"]
       /\ getitem req "headers" = Ok (headers_of "KEY").
Proof.
  split; [reflexivity|].
  apply (builder_url_by_object_type "KEY" [("object_type", VStr "products")]). reflexivity.
Defined.



(** X4: the loop over the stages returns, for a text, the key of the first
    stage in declaration order whose name holds the text or is held in it
    (both in lower case), and the text itself when no stage is; the empty
    text is held in every name, so it resolves to the first stage. *)
Theorem stage_first_match_wins (stages : list (string * string)) (s : string) :
  stage_key_for stages (VStr s)
  = Ok (VStr match List.find (stage_matches s) stages with
             | Some (stage_key, _) => stage_key
             | None => s
             end)
  /\ (forall stage_key stage_name rest,
        stages = (stage_key, stage_name) :: rest ->
        stage_key_for stages (VStr EmptyString) = Ok (VStr stage_key)).
Proof.
  split.
  - induction stages as [|[k n] rest IH]; [reflexivity|].
    cbn [stage_key_for lower bind List.find]. unfold stage_matches at 1. cbn [snd].
    destruct (PyStr.contains (PyStr.lower n) (PyStr.lower s)
              || PyStr.contains (PyStr.lower s) (PyStr.lower n)); [reflexivity|exact IH].
  - intros k n rest ->. cbn [stage_key_for lower bind PyStr.lower].
    rewrite contains_empty. now rewrite orb_true_r.
Qed.

Lemma stage_first_match_wins_witness :
  deal_stages = ("appointmentscheduled", "Appointment Scheduled") :: tl deal_stages
  /\ stage_key_for deal_stages (VStr EmptyString) = Ok (VStr "appointmentscheduled").
Proof.
  split; [reflexivity|].
  exact (proj2 (stage_first_match_wins deal_stages "negotiation")
           "appointmentscheduled" "Appointment Scheduled" (tl deal_stages) eq_refl).
Defined.

(** X5: every stage code of the vocabulary resolves to itself, so resolving
    is idempotent: what a label (in any letter case) resolves to resolves to
    itself. *)
Theorem stage_codes_pass_unchanged (code label : string) :
  In (code, label) deal_stages ->
  stage_key_for deal_stages (VStr code) = Ok (VStr code)
  /\ forall (v : string) (w : value),
       PyStr.lower v = PyStr.lower label ->
       stage_key_for deal_stages (VStr v) = Ok w ->
       stage_key_for deal_stages w = Ok w.
Proof.
  intros Hin.
  assert (Hfix : stage_key_for deal_stages (VStr code) = Ok (VStr code)).
  { unfold deal_stages in Hin. simpl in Hin.
    repeat (destruct Hin as [Hin|Hin]; [injection Hin as <- <-; vm_compute; reflexivity|]).
    contradiction. }
  split; [exact Hfix|].
  intros v w Hv Hw. rewrite stage_key_for_str in Hw.
  rewrite (stage_code_of_label code label v Hin Hv) in Hw.
  injection Hw as <-. exact Hfix.
Qed.

Lemma stage_codes_pass_unchanged_witness :
  In ("decisionmakerboughtin", "Decision Maker Bought-In") deal_stages
  /\ stage_key_for deal_stages (VStr "decisionmakerboughtin")
     = Ok (VStr "decisionmakerboughtin").
Proof.
  assert (H : In ("decisionmakerboughtin", "Decision Maker Bought-In") deal_stages)
    by (simpl; tauto).
  split; [exact H|].
  exact (proj1 (stage_codes_pass_unchanged "decisionmakerboughtin" "Decision Maker Bought-In" H)).
Defined.



(** ** The CRM Fetcher *)

(** X7: on a request the Request Builder returned, fetch finds the url,
    the parameters and the headers and calls the transport with them; it
    returns the payload unchanged and reports nothing when the transport
    answers, returns the error Result Set when it raises a RequestException,
    and lets any other exception propagate. *)
Theorem fetch_on_built_request
  (requests_get : value -> value -> value -> response) (key : string) (i req : value) :
  build_api_request key i = Ok req ->
  exists url params,
    getitem req "url" = Ok url
    /\ getitem req "params" = Ok params
    /\ fetch_hubspot_data requests_get req
       = match requests_get url params (headers_of key) with
         | Json v => (Ok v, [])
         | GetRaised (RequestException detail) =>
             (Ok (VDict [("results", VList []); ("error", VStr detail)]),
              [("Error fetching data from HubSpot: ", RequestException detail)])
         | GetRaised e => (Raise e, [])
         end.
Proof.
  intros H. destruct (build_shape key i req H) as (u & p & ->).
  exists (VStr u), (VDict p). split; [reflexivity|]. split; [reflexivity|].
  unfold fetch_hubspot_data. cbn [getitem lookup String.eqb Ascii.eqb Bool.eqb bind].
  destruct (requests_get (VStr u) (VDict p) (headers_of key)) as [e|v]; [|reflexivity].
  destruct e; reflexivity.
Qed.

Lemma fetch_on_built_request_witness :
  build_api_request "KEY" (VDict [])
  = Ok (request_of "KEY" deals_endpoint
          [("limit", VInt 10); ("properties", VStr "dealname,amount,dealstage")])
  /\ exists url params,
       getitem (request_of "KEY" deals_endpoint
                  [("limit", VInt 10); ("properties", VStr "dealname,amount,dealstage")]) "url"
       = Ok url
       /\ getitem (request_of "KEY" deals_endpoint
                     [("limit", VInt 10); ("properties", VStr "dealname,amount,dealstage")])
            "params"
          = Ok params
       /\ fetch_hubspot_data (fun _ _ _ => GetRaised KeyError)
            (request_of "KEY" deals_endpoint
               [("limit", VInt 10); ("properties", VStr "dealname,amount,dealstage")])
          = (Raise KeyError, []).
Proof.
  split; [reflexivity|].
  exact (fetch_on_built_request (fun _ _ _ => GetRaised KeyError) "KEY" (VDict [])
           (request_of "KEY" deals_endpoint
              [("limit", VInt 10); ("properties", VStr "dealname,amount,dealstage")])
           eq_refl).
Defined.

(** ** The Response Formatter *)

(** X8: in count mode, for a Result Set without error and with results, the
    Formatter returns the one line with the object type and the number of
    results, whatever the results are. *)
Theorem count_mode_counts (f d : list (string * value)) (rs : list value) :
  has_key "error" f = false ->
  lookup "results" f = Some (VList rs) ->
  rs <> [] ->
  count_mode d = true ->
  format_response (VDict f) (VDict d)
  = Ok ("📊 Total " ++ str (shown_type d) ++ ": **"
        ++ PyStr.of_Z (Z.of_nat (List.length rs)) ++ "**").
Proof.
  intros He Hr Hne Hc. rewrite (format_results f d rs He Hr Hne). cbv zeta.
  now rewrite Hc.
Qed.

Lemma count_mode_counts_witness :
  has_key "error" [("results", VList (repeat VNone 7))] = false
  /\ lookup "results" [("results", VList (repeat VNone 7))] = Some (VList (repeat VNone 7))
  /\ repeat VNone 7 <> []
  /\ count_mode [("object_type", VStr "products"); ("summary_type", VStr "count")] = true
  /\ format_response (VDict [("results", VList (repeat VNone 7))])
       (VDict [("object_type", VStr "products"); ("summary_type", VStr "count")])
     = Ok ("📊 Total "
           ++ str (shown_type [("object_type", VStr "products"); ("summary_type", VStr "count")])
           ++ ": **" ++ PyStr.of_Z (Z.of_nat (List.length (repeat VNone 7))) ++ "**").
Proof.
  assert (Hne : repeat VNone 7 <> []) by discriminate.
  split; [reflexivity|]. split; [reflexivity|]. split; [exact Hne|]. split; [reflexivity|].
  exact (count_mode_counts [("results", VList (repeat VNone 7))]
           [("object_type", VStr "products"); ("summary_type", VStr "count")]
           (repeat VNone 7) eq_refl eq_refl Hne eq_refl).
Defined.

(** X9: when the Result Set carries an error the Formatter returns the
    error line with the text of the error, and when it carries none and its
    results are absent or false (empty, null) it returns the line of no
    matching records; in both cases for any Intent, which is not read. *)
Theorem format_without_results_ignores_intent (f : list (string * value)) (i : value) :
  (forall e, lookup "error" f = Some e ->
     format_response (VDict f) i = Ok ("❌ Sorry, I encountered an error: " ++ str e))
  /\ (lookup "error" f = None ->
      truthy (match lookup "results" f with Some v => v | None => VList [] end) = false ->
      format_response (VDict f) i = Ok "🔍 I couldn't find any matching records.").
Proof.
  split.
  - intros e He. now apply format_error.
  - intros He Hr. unfold format_response. cbn [str_in bind]. unfold has_key. rewrite He.
    rewrite get_dict. cbn [bind]. rewrite Hr. reflexivity.
Qed.

Lemma format_without_results_ignores_intent_witness :
  lookup "error" [("results", VNone)] = None
  /\ truthy (match lookup "results" [("results", VNone)] with
             | Some v => v
             | None => VList []
             end) = false
  /\ format_response (VDict [("results", VNone)]) (VInt 0)
     = Ok "🔍 I couldn't find any matching records.".
Proof.
  split; [reflexivity|]. split; [reflexivity|].
  exact (proj2 (format_without_results_ignores_intent [("results", VNone)] (VInt 0))
           eq_refl eq_refl).
Defined.

(** X10: in list mode for an object type other than deals, contacts and
    companies, when the first ten results are mappings, the Formatter returns
    the header with the number of results and the object type, followed only
    by the note of the results beyond ten: no record is shown. *)
Theorem unknown_type_lists_header_only (f d : list (string * value)) (rs : list value) :
  has_key "error" f = false ->
  lookup "results" f = Some (VList rs) ->
  rs <> [] ->
  list_mode d = true ->
  known_type (shown_type d) = false ->
  forallb is_dict (firstn 10 rs) = true ->
  format_response (VDict f) (VDict d)
  = Ok (PyStr.join PyStr.newline
          (header (Z.of_nat (List.length rs)) (shown_type d)
           :: note_lines (Z.of_nat (List.length rs)))).
Proof.
  intros He Hr Hne Hm Hk Hd. rewrite (format_results f d rs He Hr Hne). cbv zeta.
  unfold list_mode in Hm. apply andb_prop in Hm. destruct Hm as [Hcm Htm].
  apply negb_true_iff in Hcm, Htm. rewrite Hcm, Htm.
  rewrite (list_loop_unknown _ _ Hk Hd). reflexivity.
Qed.

Lemma unknown_type_lists_header_only_witness :
  has_key "error" [("results", VList (repeat (VDict []) 12))] = false
  /\ lookup "results" [("results", VList (repeat (VDict []) 12))]
     = Some (VList (repeat (VDict []) 12))
  /\ repeat (VDict []) 12 <> []
  /\ list_mode [("object_type", VStr "products")] = true
  /\ known_type (shown_type [("object_type", VStr "products")]) = false
  /\ forallb is_dict (firstn 10 (repeat (VDict []) 12)) = true
  /\ format_response (VDict [("results", VList (repeat (VDict []) 12))])
       (VDict [("object_type", VStr "products")])
     = Ok (PyStr.join PyStr.newline
             (header (Z.of_nat (List.length (repeat (VDict []) 12)))
                (shown_type [("object_type", VStr "products")])
              :: note_lines (Z.of_nat (List.length (repeat (VDict []) 12))))).
Proof.
  assert (Hne : repeat (VDict []) 12 <> []) by discriminate.
  split; [reflexivity|]. split; [reflexivity|]. split; [exact Hne|].
  split; [reflexivity|]. split; [reflexivity|]. split; [reflexivity|].
  exact (unknown_type_lists_header_only [("results", VList (repeat (VDict []) 12))]
           [("object_type", VStr "products")] (repeat (VDict []) 12)
           eq_refl eq_refl Hne eq_refl eq_refl eq_refl).
Defined.

(** X11: in total mode over deals, for typed records whose amounts convert,
    the Formatter returns the line with the sum, from left to right, of the
    amounts of all the results (not of the first ten only) and the number of
    results; a record whose amount is absent, null, empty or zero adds 0. *)
Theorem total_mode_sums_all_results (f d : list (string * value)) (rs : list value) :
  has_key "error" f = false ->
  lookup "results" f = Some (VList rs) ->
  rs <> [] ->
  total_mode d = true ->
  forallb typed_record rs = true ->
  forallb amount_converts rs = true ->
  format_response (VDict f) (VDict d)
  = Ok ("💰 Total deal value: **$"
        ++ PyFloat.format_2f (fold_left PyFloat.add (map amount_value rs) PyFloat.zero)
        ++ "** across " ++ PyStr.of_Z (Z.of_nat (List.length rs)) ++ " deals")
  /\ (forall r, In r rs -> amount_blank r = true -> amount_value r = PyFloat.zero).
Proof.
  intros He Hr Hne Ht Hty Ha. pose proof (total_is_not_count d Ht) as Hc. split.
  - rewrite (format_results f d rs He Hr Hne). cbv zeta. rewrite Hc, Ht.
    rewrite (sum_amounts_fold rs Hty Ha). reflexivity.
  - intros r Hin Hb. apply amount_blank_zero; [|exact Hb].
    exact (forallb_In _ _ _ Hty Hin).
Qed.

Lemma total_mode_sums_all_results_witness :
  let rs := [ deal [("amount", VStr "100.50")]; deal [("amount", VNone)];
              deal [("amount", VStr "49.5")] ] in
  let d := [("object_type", VStr "deals"); ("summary_type", VStr "total")] in
  has_key "error" [("results", VList rs)] = false
  /\ lookup "results" [("results", VList rs)] = Some (VList rs)
  /\ rs <> []
  /\ total_mode d = true
  /\ forallb typed_record rs = true
  /\ forallb amount_converts rs = true
  /\ format_response (VDict [("results", VList rs)]) (VDict d)
     = Ok ("💰 Total deal value: **$"
           ++ PyFloat.format_2f (fold_left PyFloat.add (map amount_value rs) PyFloat.zero)
           ++ "** across " ++ PyStr.of_Z (Z.of_nat (List.length rs)) ++ " deals").
Proof.
  cbv zeta.
  assert (Hne : [ deal [("amount", VStr "100.50")]; deal [("amount", VNone)];
                  deal [("amount", VStr "49.5")] ] <> []) by discriminate.
  split; [reflexivity|]. split; [reflexivity|]. split; [exact Hne|].
  split; [reflexivity|]. split; [reflexivity|]. split; [reflexivity|].
  exact (proj1 (total_mode_sums_all_results
                  [("results", VList [ deal [("amount", VStr "100.50")]; deal [("amount", VNone)];
                                       deal [("amount", VStr "49.5")] ])]
                  [("object_type", VStr "deals"); ("summary_type", VStr "total")]
                  [ deal [("amount", VStr "100.50")]; deal [("amount", VNone)];
                    deal [("amount", VStr "49.5")] ]
                  eq_refl eq_refl Hne eq_refl eq_refl eq_refl)).
Defined.

(** X12: in the list of deals, a first record that is typed and whose close
    date is present but neither text nor a list (null, a number) makes the
    Formatter raise TypeError. *)
Theorem null_close_date_raises (f d : list (string * value)) (r : value) (rest : list value) :
  has_key "error" f = false ->
  lookup "results" f = Some (VList (r :: rest)) ->
  list_mode d = true ->
  eq_str (shown_type d) "deals" = true ->
  typed_record r = true ->
  close_date_unsliceable r = true ->
  format_response (VDict f) (VDict d) = Raise TypeError.
Proof.
  intros He Hr Hm Hd Ht Hc.
  rewrite (format_results f d (r :: rest) He Hr) by discriminate. cbv zeta.
  unfold list_mode in Hm. apply andb_prop in Hm. destruct Hm as [Hcm Htm].
  apply negb_true_iff in Hcm, Htm. rewrite Hcm, Htm.
  cbn [firstn list_loop].
  destruct (shown_type d) as [| | | |s| |]; try discriminate.
  cbn [eq_str] in Hd. apply String.eqb_eq in Hd. subst s.
  rewrite (deal_parts_unsliceable 1 r Ht Hc). reflexivity.
Qed.

Lemma null_close_date_raises_witness :
  has_key "error" [("results", VList [deal [("dealname", VStr "Renewal"); ("closedate", VNone)]])]
  = false
  /\ list_mode [("object_type", VStr "deals")] = true
  /\ eq_str (shown_type [("object_type", VStr "deals")]) "deals" = true
  /\ typed_record (deal [("dealname", VStr "Renewal"); ("closedate", VNone)]) = true
  /\ close_date_unsliceable (deal [("dealname", VStr "Renewal"); ("closedate", VNone)]) = true
  /\ format_response
       (VDict [("results", VList [deal [("dealname", VStr "Renewal"); ("closedate", VNone)]])])
       (VDict [("object_type", VStr "deals")])
     = Raise TypeError.
Proof.
  split; [reflexivity|]. split; [reflexivity|]. split; [reflexivity|].
  split; [reflexivity|]. split; [reflexivity|].
  exact (null_close_date_raises
           [("results", VList [deal [("dealname", VStr "Renewal"); ("closedate", VNone)]])]
           [("object_type", VStr "deals")]
           (deal [("dealname", VStr "Renewal"); ("closedate", VNone)]) []
           eq_refl eq_refl eq_refl eq_refl eq_refl eq_refl).
Defined.

(** X13: in the list of contacts, a record whose first and last names are
    both null is shown under the name None None, while a record with neither
    name is shown as Unnamed Contact. *)
Theorem contact_names_null_or_absent (i : Z) (p : list (string * value)) :
  (lookup "firstname" p = Some VNone -> lookup "lastname" p = Some VNone ->
   exists rest,
     record_parts (VStr "contacts") i (VDict [("properties", VDict p)])
     = Ok (("**" ++ PyStr.of_Z i ++ ".** 👤 None None") :: rest))
  /\ (lookup "firstname" p = None -> lookup "lastname" p = None ->
      exists rest,
        record_parts (VStr "contacts") i (VDict [("properties", VDict p)])
        = Ok (("**" ++ PyStr.of_Z i ++ ".** 👤 Unnamed Contact") :: rest)).
Proof.
  split; intros Hf Hl;
    change (record_parts (VStr "contacts") i (VDict [("properties", VDict p)]))
      with (contact_parts i (VDict p));
    unfold contact_parts; repeat rewrite get_dict; rewrite Hf, Hl; cbn [bind str repr].
  - change (PyStr.strip ("None" ++ " " ++ "None")) with "None None".
    cbn [truthy]. destruct (eq_str _ "N/A"); cbn [negb app]; eexists; reflexivity.
  - change (PyStr.strip (EmptyString ++ " " ++ EmptyString)) with EmptyString.
    cbn [truthy]. destruct (eq_str _ "N/A"); cbn [negb app]; eexists; reflexivity.
Qed.

Lemma contact_names_null_or_absent_witness :
  lookup "firstname" [("firstname", VNone); ("lastname", VNone)] = Some VNone
  /\ lookup "lastname" [("firstname", VNone); ("lastname", VNone)] = Some VNone
  /\ exists rest,
       record_parts (VStr "contacts") 1
         (VDict [("properties", VDict [("firstname", VNone); ("lastname", VNone)])])
       = Ok (("**" ++ PyStr.of_Z 1 ++ ".** 👤 None None") :: rest).
Proof.
  split; [reflexivity|]. split; [reflexivity|].
  exact (proj1 (contact_names_null_or_absent 1 [("firstname", VNone); ("lastname", VNone)])
           eq_refl eq_refl).
Defined.

(** X14: a summary type other than count, and other than total over deals,
    is formatted as the summary type list is: total over contacts or
    companies and every unrecognised summary type give the list. *)
Theorem unrecognised_summary_is_list (data : value) (object_type summary_type : string) :
  summary_type <> "count" ->
  summary_type <> "total" \/ object_type <> "deals" ->
  format_response data (intent object_type summary_type)
  = format_response data (intent object_type "list").
Proof.
  intros Hc Ht. unfold format_response, intent.
  destruct (str_in "error" data) as [b|]; cbn [bind]; [|reflexivity].
  destruct b; [reflexivity|].
  destruct (get data "results" (VList [])) as [results|]; cbn [bind]; [|reflexivity].
  destruct (truthy results); cbn [negb]; [|reflexivity].
  repeat rewrite get_dict. cbn [lookup String.eqb Ascii.eqb Bool.eqb bind eq_str].
  apply String.eqb_neq in Hc. rewrite Hc.
  assert (E : String.eqb summary_type "total" && String.eqb object_type "deals" = false).
  { destruct Ht as [H|H]; apply String.eqb_neq in H; rewrite H;
      [reflexivity|apply andb_false_r]. }
  rewrite E. reflexivity.
Qed.

Lemma unrecognised_summary_is_list_witness :
  "total" <> "count"
  /\ ("total" <> "total" \/ "contacts" <> "deals")
  /\ format_response (VDict [("results", VList [VDict []])]) (intent "contacts" "total")
     = format_response (VDict [("results", VList [VDict []])]) (intent "contacts" "list").
Proof.
  assert (H1 : "total" <> "count") by discriminate.
  assert (H2 : "total" <> "total" \/ "contacts" <> "deals") by (right; discriminate).
  split; [exact H1|]. split; [exact H2|].
  exact (unrecognised_summary_is_list (VDict [("results", VList [VDict []])])
           "contacts" "total" H1 H2).
Defined.

(** X15: in list mode the text depends on the results only through their
    number and the first ten of them: two Result Sets without error that have
    as many results and the same first ten results are formatted alike,
    whatever follows the tenth result. *)
Theorem list_ignores_results_after_tenth
  (f f' d : list (string * value)) (rs rs' : list value) :
  has_key "error" f = false -> has_key "error" f' = false ->
  lookup "results" f = Some (VList rs) ->
  lookup "results" f' = Some (VList rs') ->
  rs <> [] ->
  list_mode d = true ->
  firstn 10 rs = firstn 10 rs' ->
  List.length rs = List.length rs' ->
  format_response (VDict f) (VDict d) = format_response (VDict f') (VDict d).
Proof.
  intros He He' Hr Hr' Hne Hm H10 Hlen.
  assert (Hne' : rs' <> []).
  { destruct rs'; [|discriminate]. destruct rs; [contradiction|discriminate]. }
  rewrite (format_results f d rs He Hr Hne), (format_results f' d rs' He' Hr' Hne').
  cbv zeta. unfold list_mode in Hm. apply andb_prop in Hm. destruct Hm as [Hcm Htm].
  apply negb_true_iff in Hcm, Htm. rewrite Hcm, Htm. now rewrite H10, Hlen.
Qed.

Lemma list_ignores_results_after_tenth_witness :
  let rs := (repeat (deal []) 10 ++ [VNone])%list in
  let rs' := (repeat (deal []) 10 ++ [deal []])%list in
  let d := [("object_type", VStr "deals")] in
  has_key "error" [("results", VList rs)] = false
  /\ has_key "error" [("results", VList rs')] = false
  /\ rs <> []
  /\ list_mode d = true
  /\ firstn 10 rs = firstn 10 rs'
  /\ List.length rs = List.length rs'
  /\ format_response (VDict [("results", VList rs)]) (VDict d)
     = format_response (VDict [("results", VList rs')]) (VDict d).
Proof.
  cbv zeta.
  assert (Hne : (repeat (deal []) 10 ++ [VNone])%list <> []) by discriminate.
  split; [reflexivity|]. split; [reflexivity|]. split; [exact Hne|].
  split; [reflexivity|]. split; [reflexivity|]. split; [reflexivity|].
  exact (list_ignores_results_after_tenth
           [("results", VList (repeat (deal []) 10 ++ [VNone])%list)]
           [("results", VList (repeat (deal []) 10 ++ [deal []])%list)]
           [("object_type", VStr "deals")]
           (repeat (deal []) 10 ++ [VNone])%list (repeat (deal []) 10 ++ [deal []])%list
           eq_refl eq_refl eq_refl eq_refl Hne eq_refl eq_refl eq_refl).
Defined.

(** ** The pipeline *)

(** X16: when interpretation fails, process_query asks the transport for
    the deals endpoint with limit 10 and properties dealname,amount and no
    filter; it formats the payload against the fallback Intent, turns a
    RequestException into the error line (reporting both failures), and lets
    any other exception of the transport propagate. *)
Theorem failed_interpretation_asks_for_deals
  (create : string -> string -> completion)
  (requests_get : value -> value -> value -> response)
  (key user_query : string) (e : exn) :
  create system_prompt user_query = CallRaised e
  \/ (exists c, create system_prompt user_query = Content c /\ json_loads c = Raise e) ->
  process_query create requests_get key user_query
  = match requests_get (VStr "https://api.hubapi.com/crm/v3/objects/deals")
            (VDict [("limit", VInt 10); ("properties", VStr "dealname,amount")])
            (headers_of key) with
    | Json data =>
        (format_response data fallback, [("Error interpreting query: ", e)])
    | GetRaised (RequestException detail) =>
        (Ok ("❌ Sorry, I encountered an error: " ++ detail),
         [ ("Error interpreting query: ", e);
           ("Error fetching data from HubSpot: ", RequestException detail) ])
    | GetRaised e' => (Raise e', [("Error interpreting query: ", e)])
    end.
Proof.
  intros H.
  assert (Hi : interpret_query create user_query
               = (fallback, [("Error interpreting query: ", e)])).
  { unfold interpret_query, interpret_body.
    destruct H as [H|[c [Hc He]]]; [now rewrite H|now rewrite Hc, He]. }
  unfold process_query. rewrite Hi.
  change (build_api_request key fallback)
    with (Ok (request_of key deals_endpoint
                [("limit", VInt 10); ("properties", VStr "dealname,amount")])).
  cbv beta iota. rewrite fetch_request_of.
  change (VStr (base_url ++ endpoint deals_endpoint))
    with (VStr "https://api.hubapi.com/crm/v3/objects/deals").
  destruct (requests_get _ _ _) as [x|v]; [|reflexivity].
  destruct x; reflexivity.
Qed.

Lemma failed_interpretation_asks_for_deals_witness :
  (answers "no idea" system_prompt "What is the weather?" = CallRaised ValueError
   \/ (exists c,
         answers "no idea" system_prompt "What is the weather?" = Content c
         /\ json_loads c = Raise ValueError))
  /\ process_query (answers "no idea") (fails_with "503 Server Error") "KEY"
       "What is the weather?"
     = (Ok ("❌ Sorry, I encountered an error: " ++ "503 Server Error"),
        [ ("Error interpreting query: ", ValueError);
          ("Error fetching data from HubSpot: ", RequestException "503 Server Error") ]).
Proof.
  assert (H : answers "no idea" system_prompt "What is the weather?" = CallRaised ValueError
              \/ (exists c,
                    answers "no idea" system_prompt "What is the weather?" = Content c
                    /\ json_loads c = Raise ValueError)).
  { right. exists (VStr "no idea"). split; reflexivity. }
  split; [exact H|].
  exact (failed_interpretation_asks_for_deals (answers "no idea") (fails_with "503 Server Error")
           "KEY" "What is the weather?" ValueError H).
Defined.

(** X17: when the reply of the completion service parses to a typed Intent
    and the transport answers every request with a typed Result Set whose
    records the mode of the Intent can render, process_query returns the
    text the Formatter gives for that Result Set and Intent, and reports
    nothing. *)
Theorem typed_pipeline_returns_text
  (create : string -> string -> completion)
  (requests_get : value -> value -> value -> response)
  (key user_query : string) (c : value) (d : list (string * value)) (data : value) :
  create system_prompt user_query = Content c ->
  json_loads c = Ok (VDict d) ->
  typed_intent (VDict d) = true ->
  (forall url params headers, requests_get url params headers = Json data) ->
  typed_result_set data = true ->
  renders d (results_of data) = true ->
  exists text,
    process_query create requests_get key user_query = (Ok text, [])
    /\ format_response data (VDict d) = Ok text.
Proof.
  intros Hc Hj Hi Hg Hd Hr.
  destruct (format_typed_returns d data Hd Hr) as [text Ht].
  exists text. split; [|exact Ht].
  unfold process_query, interpret_query, interpret_body. rewrite Hc, Hj.
  rewrite (build_typed key d Hi). rewrite fetch_request_of. rewrite Hg. now rewrite Ht.
Qed.

Lemma typed_pipeline_returns_text_witness :
  let text := "{" ++ q "object_type" ++ ": " ++ q "contacts" ++ ", "
              ++ q "summary_type" ++ ": " ++ q "count" ++ "}" in
  let d := [("object_type", VStr "contacts"); ("summary_type", VStr "count")] in
  let data := VDict [("results", VList [VDict []; VDict []])] in
  json_loads (VStr text) = Ok (VDict d)
  /\ typed_intent (VDict d) = true
  /\ typed_result_set data = true
  /\ renders d (results_of data) = true
  /\ exists shown,
       process_query (answers text) (fun _ _ _ => Json data) "KEY" "How many contacts?"
       = (Ok shown, [])
       /\ format_response data (VDict d) = Ok shown.
Proof.
  cbv zeta.
  split; [reflexivity|]. split; [reflexivity|]. split; [reflexivity|]. split; [reflexivity|].
  exact (typed_pipeline_returns_text
           (answers ("{" ++ q "object_type" ++ ": " ++ q "contacts" ++ ", "
                     ++ q "summary_type" ++ ": " ++ q "count" ++ "}"))
           (fun _ _ _ => Json (VDict [("results", VList [VDict []; VDict []])]))
           "KEY" "How many contacts?"
           (VStr ("{" ++ q "object_type" ++ ": " ++ q "contacts" ++ ", "
                  ++ q "summary_type" ++ ": " ++ q "count" ++ "}"))
           [("object_type", VStr "contacts"); ("summary_type", VStr "count")]
           (VDict [("results", VList [VDict []; VDict []])])
           eq_refl eq_refl eq_refl (fun _ _ _ => eq_refl) eq_refl eq_refl).
Defined.

(** X18: when the reply parses to a typed Intent and the transport raises
    a RequestException for every request, process_query returns the error
    line with the detail of the exception and reports the fetch failure. *)
Theorem fetch_failure_reaches_user
  (create : string -> string -> completion)
  (requests_get : value -> value -> value -> response)
  (key user_query : string) (c : value) (d : list (string * value)) (detail : string) :
  create system_prompt user_query = Content c ->
  json_loads c = Ok (VDict d) ->
  typed_intent (VDict d) = true ->
  (forall url params headers,
     requests_get url params headers = GetRaised (RequestException detail)) ->
  process_query create requests_get key user_query
  = (Ok ("❌ Sorry, I encountered an error: " ++ detail),
     [("Error fetching data from HubSpot: ", RequestException detail)]).
Proof.
  intros Hc Hj Hi Hg.
  unfold process_query, interpret_query, interpret_body. rewrite Hc, Hj.
  rewrite (build_typed key d Hi). rewrite fetch_request_of. rewrite Hg.
  rewrite (format_error [("results", VList []); ("error", VStr detail)] _ (VStr detail) eq_refl).
  reflexivity.
Qed.

Lemma fetch_failure_reaches_user_witness :
  json_loads (VStr "{}") = Ok (VDict [])
  /\ typed_intent (VDict []) = true
  /\ process_query (answers "{}") (fails_with "401 Client Error: Unauthorized") "KEY"
       "Show me all deals"
     = (Ok ("❌ Sorry, I encountered an error: " ++ "401 Client Error: Unauthorized"),
        [("Error fetching data from HubSpot: ",
          RequestException "401 Client Error: Unauthorized")]).
Proof.
  split; [reflexivity|]. split; [reflexivity|].
  exact (fetch_failure_reaches_user (answers "{}") (fails_with "401 Client Error: Unauthorized")
           "KEY" "Show me all deals" (VStr "{}") [] "401 Client Error: Unauthorized"
           eq_refl eq_refl eq_refl (fun _ _ _ => eq_refl)).
Defined.

(** X19: a reply that is JSON but no mapping (a list, a number, text, null)
    is returned by interpret as it is, and process_query then raises
    AttributeError from the Request Builder before any request is sent. *)
Theorem non_mapping_reply_raises
  (create : string -> string -> completion)
  (requests_get : value -> value -> value -> response)
  (key user_query : string) (c v : value) :
  create system_prompt user_query = Content c ->
  json_loads c = Ok v ->
  is_dict v = false ->
  interpret_query create user_query = (v, [])
  /\ process_query create requests_get key user_query = (Raise AttributeError, []).
Proof.
  intros Hc Hj Hv.
  assert (Hi : interpret_query create user_query = (v, [])).
  { unfold interpret_query, interpret_body. now rewrite Hc, Hj. }
  split; [exact Hi|]. unfold process_query. rewrite Hi.
  destruct v; try discriminate; reflexivity.
Qed.

Lemma non_mapping_reply_raises_witness :
  json_loads (VStr "[1, 2]") = Ok (VList [VInt 1; VInt 2])
  /\ is_dict (VList [VInt 1; VInt 2]) = false
  /\ interpret_query (answers "[1, 2]") "Show me all deals" = (VList [VInt 1; VInt 2], [])
  /\ process_query (answers "[1, 2]") (fails_with "unused") "KEY" "Show me all deals"
     = (Raise AttributeError, []).
Proof.
  split; [reflexivity|]. split; [reflexivity|].
  exact (non_mapping_reply_raises (answers "[1, 2]") (fails_with "unused") "KEY"
           "Show me all deals" (VStr "[1, 2]") (VList [VInt 1; VInt 2])
           eq_refl eq_refl eq_refl).
Defined.
